(** * GitHub Repo Analyst: the context-assembly and AI-summarisation pipeline

    A shallow embedding of [app.py]: the URL validator
    ([validate_repo_url]), the file selector
    ([get_important_file_content]), the repository data fetcher
    ([fetch_repo_data]) and the AI analysis runner ([run_ai_analysis],
    which also composes the prompt).

    Python values are modelled as follows.
    - [str] is [string]; one [ascii] stands for one character of the
      Python string.  The code only compares characters with ['/'] and
      with the characters of fixed literals, and counts them.
    - [int] is [Z].
    - an exception that is raised is a value of [exn]; a function that can
      raise returns a [result].
    - a [dict] is an association list in insertion order ([dict_set]
      overwrites in place, as Python does).
    - the forge (PyGithub) and the AI service (iointel) are not part of
      the program: what they answer is an input of the model. *)

From Stdlib Require Import String Ascii List ZArith Lia Bool.
From Stdlib Require Import Permutation Sorted DecimalString.
Import ListNotations.
Open Scope string_scope.

(** ** Exceptions and results *)

(** [GithubException] carries the HTTP status and the text that [str(e)]
    gives for it. *)
Record GithubException : Type := mkGithubException {
  status : Z;
  gh_text : string
}.

Inductive exn : Type :=
| ValueError (msg : string)
| KeyError (key : string)
| TypeError (msg : string)
| AttributeError (msg : string)
| UnicodeDecodeError (msg : string)
| AssertionError (msg : string)
| GithubExc (e : GithubException)
| ServiceError (msg : string)   (* what the AI round trip itself raises *)
| Exception (msg : string).     (* a plain [Exception(msg)] *)

Inductive result (A : Type) : Type :=
| Return (a : A)
| Raise (e : exn).
Arguments Return {A} a.
Arguments Raise {A} e.

Definition nl : string := String "010"%char "".
Definition quote : string := String "039"%char "".

(** [str(e)] for the exceptions above.  [str(KeyError(k))] is the [repr]
    of the key; the keys used here contain no quote. *)
Definition str_exn (e : exn) : string :=
  match e with
  | ValueError m | TypeError m | AttributeError m | UnicodeDecodeError m
  | AssertionError m | ServiceError m | Exception m => m
  | KeyError k => quote ++ k ++ quote
  | GithubExc e => gh_text e
  end.

(** ** Strings *)

(** [s[:n]] for a natural [n]. *)
Definition str_take (n : nat) (s : string) : string := substring 0 n s.

(** [str(z)] for an integer. *)
Definition str_of_Z (z : Z) : string := NilZero.string_of_int (Z.to_int z).

Fixpoint no_char (c : ascii) (s : string) : bool :=
  match s with
  | EmptyString => true
  | String a s' => negb (Ascii.eqb a c) && no_char c s'
  end.

(** A string is at a [c]-boundary when it is empty or starts with [c]. *)
Definition at_boundary (c : ascii) (s : string) : bool :=
  match s with
  | EmptyString => true
  | String a _ => Ascii.eqb a c
  end.

(** ** Regular expressions: the fragment [re.match] is used with

    A backtracking matcher in continuation-passing style.  The
    continuation receives the rest of the input and the groups captured
    so far; [None] makes the matcher back off to its next alternative,
    in the order Python's engine tries them (greedy first). *)
Module Re.

Inductive regex : Type :=
| Eps
| Chr (c : ascii)               (* a literal character *)
| NotChrPlus (c : ascii)        (* [[^c]+] *)
| Opt (r : regex)               (* [r?] *)
| Cat (r1 r2 : regex)
| Group (r : regex).            (* [(r)] *)

Definition cont : Type := string -> list string -> option (list string).

(** [[^c]*], longest first. *)
Fixpoint not_chr_star (c : ascii) (s : string) (k : cont) (groups : list string)
  : option (list string) :=
  match s with
  | EmptyString => k s groups
  | String a s' =>
      if Ascii.eqb a c then k s groups
      else match not_chr_star c s' k groups with
           | Some g => Some g
           | None => k s groups
           end
  end.

Fixpoint run (r : regex) (s : string) (k : cont) (groups : list string)
  : option (list string) :=
  match r with
  | Eps => k s groups
  | Chr c =>
      match s with
      | String a s' => if Ascii.eqb a c then k s' groups else None
      | EmptyString => None
      end
  | NotChrPlus c =>
      match s with
      | String a s' => if Ascii.eqb a c then None else not_chr_star c s' k groups
      | EmptyString => None
      end
  | Opt r1 =>
      match run r1 s k groups with
      | Some g => Some g
      | None => k s groups
      end
  | Cat r1 r2 => run r1 s (fun s' g' => run r2 s' k g') groups
  | Group r1 =>
      run r1 s
        (fun s' g' =>
           k s' (g' ++ [str_take (String.length s - String.length s') s])%list)
        groups
  end.

(** A literal string. *)
Fixpoint lit (p : string) : regex :=
  match p with
  | EmptyString => Eps
  | String c p' => Cat (Chr c) (lit p')
  end.

(** [re.match(r, s)]: the match is anchored at the start of [s] only; the
    answer is the list of captured groups. *)
Definition re_match (r : regex) (s : string) : option (list string) :=
  run r s (fun _ g => Some g) [].

End Re.

(** ** URL validator *)

(** [r"https?://github\.com/([^/]+)/([^/]+)"] *)
Definition pattern : Re.regex :=
  Re.Cat (Re.lit "http")
  (Re.Cat (Re.Opt (Re.Chr "s"))
  (Re.Cat (Re.lit "://github.com/")
  (Re.Cat (Re.Group (Re.NotChrPlus "/"))
  (Re.Cat (Re.Chr "/")
          (Re.Group (Re.NotChrPlus "/")))))).

Definition invalid_url_message : string :=
  "Invalid GitHub URL. Please use the format: https://github.com/owner/repo".

Definition validate_repo_url (url : string) : result string :=
  match Re.re_match pattern url with
  | Some [group1; group2] => Return (group1 ++ "/" ++ group2)
  | _ => Raise (ValueError invalid_url_message)
  end.

(** ** Python containers *)

(** A [dict] with [str] keys, in insertion order. *)
Definition dict (V : Type) : Type := list (string * V).

(** [d[k] = v]: an existing key keeps its place, a new key goes last. *)
Fixpoint dict_set {V : Type} (k : string) (v : V) (d : dict V) : dict V :=
  match d with
  | [] => [(k, v)]
  | (k', v') :: d' =>
      if String.eqb k' k then (k', v) :: d' else (k', v') :: dict_set k v d'
  end.

Fixpoint dict_get {V : Type} (k : string) (d : dict V) : option V :=
  match d with
  | [] => None
  | (k', v') :: d' => if String.eqb k' k then Some v' else dict_get k d'
  end.

Definition dict_keys {V : Type} (d : dict V) : list string := map fst d.

(** [x in l] and [l.index(x)] on a list of strings; [list_index] is
    [None] where Python raises [ValueError]. *)
Definition str_in (x : string) (l : list string) : bool :=
  existsb (String.eqb x) l.

Fixpoint list_index (x : string) (l : list string) : option nat :=
  match l with
  | [] => None
  | y :: l' =>
      if String.eqb y x then Some 0
      else match list_index x l' with
           | Some i => Some (S i)
           | None => None
           end
  end.

(** [l[:n]] for an integer [n]: a negative [n] counts from the end. *)
Definition slice_to {A : Type} (n : Z) (l : list A) : list A :=
  if (0 <=? n)%Z then firstn (Z.to_nat n) l
  else firstn (length l - Z.to_nat (- n)) l.

(** [sep.join(l)] *)
Fixpoint join (sep : string) (l : list string) : string :=
  match l with
  | [] => ""
  | [x] => x
  | x :: l' => x ++ sep ++ join sep l'
  end.

(** [x or d] on an optional string: [None] and the empty string are
    falsy. *)
Definition py_or (x : option string) (d : string) : string :=
  match x with
  | Some (String c s) => String c s
  | _ => d
  end.

(** ** Sorting

    [list.sort(key=...)] is a stable ascending sort on the keys, which are
    compared with [<].  The keys here are list indices and
    [float('inf')]. *)
Inductive sort_key : Type :=
| Index (i : nat)
| Inf.

Definition key_lt (a b : sort_key) : bool :=
  match a, b with
  | Index i, Index j => (i <? j)%nat
  | Index _, Inf => true
  | Inf, _ => false
  end.

Definition key_eqb (a b : sort_key) : bool :=
  match a, b with
  | Index i, Index j => (i =? j)%nat
  | Inf, Inf => true
  | _, _ => false
  end.

Section Sort.
Context {A : Type} (key : A -> sort_key).

(** [x] goes before the first element whose key is not smaller. *)
Fixpoint insert_by (x : A) (l : list A) : list A :=
  match l with
  | [] => [x]
  | y :: l' =>
      if key_lt (key y) (key x) then y :: insert_by x l' else x :: y :: l'
  end.

Definition sort_by (l : list A) : list A := fold_right insert_by [] l.
End Sort.

(** ** The outside world: events, and the monad of a run *)

(** What is sent to the AI service by one [run_tasks()]. *)
Record ai_request : Type := mk_ai_request {
  agent_name : string;
  instructions : string;
  model : string;
  req_api_key : string;
  base_url : string;
  objective : string;
  client_mode : bool;
  max_words : Z
}.

Inductive event : Type :=
| forge_get_repo (full_name : string)
| forge_get_languages
| forge_get_contents (dir : string)
| forge_decoded_content (file_path : string)
| forge_get_topics
| st_warning (msg : string)
| ai_run_tasks (req : ai_request).

(** A run gives a value or raises, and leaves the events it caused, in
    order. *)
Definition io (A : Type) : Type := (result A * list event)%type.

Definition ret {A : Type} (a : A) : io A := (Return a, []).
Definition raise {A : Type} (e : exn) : io A := (Raise e, []).
Definition emit (e : event) : io unit := (Return tt, [e]).

Definition bind {A B : Type} (m : io A) (f : A -> io B) : io B :=
  match m with
  | (Return a, t) => let (r, t') := f a in (r, (t ++ t')%list)
  | (Raise e, t) => (Raise e, t)
  end.

Notation "x <- m ;; k" := (bind m (fun x => k))
  (at level 61, m at next level, right associativity).
Notation "m ;;; k" := (bind m (fun _ => k))
  (at level 61, right associativity).

(** [try: m / except <handles> as e: h e] *)
Definition try_except {A : Type} (m : io A) (handles : exn -> bool)
  (h : exn -> io A) : io A :=
  match m with
  | (Raise e, t) =>
      if handles e then let (r, t') := h e in (r, (t ++ t')%list)
      else (Raise e, t)
  | (Return a, t) => (Return a, t)
  end.

(** [for x in l: acc = body x acc] *)
Fixpoint for_each {A S : Type} (l : list A) (body : A -> S -> io S) (acc : S)
  : io S :=
  match l with
  | [] => ret acc
  | x :: l' => acc' <- body x acc ;; for_each l' body acc'
  end.

(** ** The forge (PyGithub)

    A call to the forge answers or raises [GithubException]; every call
    leaves its event. *)
Inductive forge_answer (A : Type) : Type :=
| Ok (a : A)
| Fails (e : GithubException).
Arguments Ok {A} a.
Arguments Fails {A} e.

Definition forge {A : Type} (what : event) (answer : forge_answer A) : io A :=
  (match answer with
   | Ok a => Return a
   | Fails e => Raise (GithubExc e)
   end, [what]).

(** A [bytes] value is represented by what [.decode('utf-8')] makes of
    it. *)
Inductive bytes : Type :=
| Utf8 (text : string)
| NotUtf8 (reason : string).

Definition decode_utf8 (b : bytes) : io string :=
  match b with
  | Utf8 text => ret text
  | NotUtf8 reason => raise (UnicodeDecodeError reason)
  end.

(** An entry of a directory listing.  [type], [name], [path] and [size]
    come with the listing; [decoded_content] is fetched when it is read. *)
Module ContentFile.
Record t : Type := mk {
  type : string;
  name : string;
  path : string;
  size : Z;
  decoded_content : forge_answer bytes
}.
End ContentFile.

Module Repository.
Record t : Type := mk {
  name : string;
  owner_login : string;
  description : option string;
  html_url : string;
  language : option string;
  stargazers_count : Z;
  forks_count : Z;
  get_languages : forge_answer (dict Z);
  get_topics : forge_answer (list string);
  get_contents : string -> forge_answer (list ContentFile.t)
}.
End Repository.

Record Github : Type := mkGithub {
  get_repo : string -> forge_answer Repository.t
}.

Definition is_GithubException (e : exn) : bool :=
  match e with
  | GithubExc _ => true
  | _ => false
  end.

Definition is_UnicodeDecodeError_or_GithubException (e : exn) : bool :=
  match e with
  | UnicodeDecodeError _ | GithubExc _ => true
  | _ => false
  end.

Definition is_Exception (e : exn) : bool := true.

(** ** File selector *)

Definition priority_files : list string :=
  [ "README.md"; "pyproject.toml"; "package.json"; "requirements.txt";
    "main.py"; "app.py"; "index.js"; "docker-compose.yml"; "Dockerfile";
    "pom.xml"; "build.gradle" ].

(** [priority_files.index(f.name) if f.name in priority_files else float('inf')] *)
Definition priority_key (f : ContentFile.t) : sort_key :=
  if str_in (ContentFile.name f) priority_files then
    match list_index (ContentFile.name f) priority_files with
    | Some i => Index i
    | None => Inf
    end
  else Inf.

Definition too_large_message (max_file_size : Z) : string :=
  "--- File content too large (>" ++ str_of_Z max_file_size ++ " bytes) ---".

Definition could_not_decode_message : string :=
  "--- Could not decode file content ---".

(** The body of the loop over the files to check. *)
Definition read_file (max_file_size : Z) (content_file : ContentFile.t)
  (file_contents : dict string) : io (dict string) :=
  if (ContentFile.size content_file >? max_file_size)%Z then
    ret (dict_set (ContentFile.path content_file)
           (too_large_message max_file_size) file_contents)
  else
    try_except
      (raw <- forge (forge_decoded_content (ContentFile.path content_file))
                (ContentFile.decoded_content content_file) ;;
       decoded_content <- decode_utf8 raw ;;
       ret (dict_set (ContentFile.path content_file) decoded_content file_contents))
      is_UnicodeDecodeError_or_GithubException
      (fun _ =>
         ret (dict_set (ContentFile.path content_file)
                could_not_decode_message file_contents)).

(** The files the loop runs over: [files_to_check[:max_files]] after the
    filter and the sort. *)
Definition files_to_check (contents : list ContentFile.t) : list ContentFile.t :=
  sort_by priority_key
    (filter (fun f => String.eqb (ContentFile.type f) "file") contents).

(** The listing is the only statement of the outer [try] that can raise a
    [GithubException] past the inner handler (see [for_each_read_file_returns]
    below), and it runs before [file_contents] is written: in the outer
    handler [file_contents] is still empty. *)
Definition get_important_file_content (repo : Repository.t)
  (max_files max_file_size : Z) : io (dict string) :=
  let file_contents : dict string := [] in
  try_except
    (contents <- forge (forge_get_contents "") (Repository.get_contents repo "") ;;
     for_each (slice_to max_files (files_to_check contents))
       (read_file max_file_size) file_contents)
    is_GithubException
    (fun e =>
       emit (st_warning ("Could not fetch some file contents: " ++ str_exn e)) ;;;
       ret file_contents).

(** ** Repository data fetcher *)

Module RepoData.
Record t : Type := mk {
  name : string;
  owner : string;
  description : string;
  url : string;
  language : string;
  tech_stack : list string;
  stars : Z;
  forks : Z;
  topics : list string;
  important_files : dict string
}.
End RepoData.

Definition no_description : string := "No description provided.".
Definition not_specified : string := "Not specified".
Definition not_found_message : string :=
  "Repository not found. Please check the URL.".
Definition auth_error_message : string :=
  "Authentication error. Please check your GitHub token.".
Definition fetch_error_prefix : string := "Error fetching repo data: ".

(** The [except GithubException as e] branch of [fetch_repo_data]. *)
Definition fetch_error (e : exn) : exn :=
  match e with
  | GithubExc ge =>
      if (status ge =? 404)%Z then Exception not_found_message
      else if (status ge =? 401)%Z then Exception auth_error_message
      else Exception (fetch_error_prefix ++ str_exn e)
  | _ => e
  end.

Definition fetch_repo_data (g : Github) (repo_name : string) : io RepoData.t :=
  try_except
    (repo <- forge (forge_get_repo repo_name) (get_repo g repo_name) ;;
     languages <- forge forge_get_languages (Repository.get_languages repo) ;;
     let tech_stack := dict_keys languages in
     important_files <- get_important_file_content repo 7 15000 ;;
     topics <- forge forge_get_topics (Repository.get_topics repo) ;;
     ret {| RepoData.name := Repository.name repo;
            RepoData.owner := Repository.owner_login repo;
            RepoData.description :=
              py_or (Repository.description repo) no_description;
            RepoData.url := Repository.html_url repo;
            RepoData.language := py_or (Repository.language repo) not_specified;
            RepoData.tech_stack := tech_stack;
            RepoData.stars := Repository.stargazers_count repo;
            RepoData.forks := Repository.forks_count repo;
            RepoData.topics := topics;
            RepoData.important_files := important_files |})
    is_GithubException
    (fun e => raise (fetch_error e)).

(** ** AI analysis runner *)

(** What the AI service hands back: a loosely typed Python value. *)
#[local] Set Warnings "-register-all".
Inductive pyval : Type :=
| PyNone
| PyStr (s : string)
| PyList (items : list pyval)
| PyDict (items : list (string * pyval))
| PyObject (cls : string) (attrs : list (string * pyval)).

(** The service: what [run_tasks()] returns or raises for a request. *)
Definition ai_service : Type := ai_request -> result pyval.

Definition type_name (v : pyval) : string :=
  match v with
  | PyNone => "NoneType"
  | PyStr _ => "str"
  | PyList _ => "list"
  | PyDict _ => "dict"
  | PyObject cls _ => cls
  end.

(** [v[key]] for a string key.  The wording of the [TypeError] depends on
    the interpreter; nothing below depends on it. *)
Definition getitem (v : pyval) (key : string) : io pyval :=
  match v with
  | PyDict items =>
      match dict_get key items with
      | Some x => ret x
      | None => raise (KeyError key)
      end
  | PyStr _ => raise (TypeError "string indices must be integers")
  | PyList _ => raise (TypeError "list indices must be integers or slices, not str")
  | _ =>
      raise (TypeError (quote ++ type_name v ++ quote ++ " object is not subscriptable"))
  end.

(** [v.attr], for an attribute name that no built-in type has. *)
Definition getattr (v : pyval) (attr : string) : io pyval :=
  let missing :=
    AttributeError
      (quote ++ type_name v ++ quote ++ " object has no attribute "
         ++ quote ++ attr ++ quote) in
  match v with
  | PyObject _ attrs =>
      match dict_get attr attrs with
      | Some x => ret x
      | None => raise missing
      end
  | _ => raise missing
  end.

Record analysis : Type := mk_analysis {
  overview : pyval;
  features : pyval
}.

Definition context_header (repo_data : RepoData.t) : string :=
  nl ++ "    Repository Name: " ++ RepoData.name repo_data ++
  nl ++ "    Description: " ++ RepoData.description repo_data ++
  nl ++ "    Primary Language: " ++ RepoData.language repo_data ++
  nl ++ "    Topics: " ++ join ", " (RepoData.topics repo_data) ++
  nl ++ "    " ++
  nl ++ "    Key File Contents:" ++
  nl ++ "    ".

(** What one turn of the loop appends to [context]. *)
Definition file_block (path content : string) : string :=
  nl ++ "--- Start of " ++ path ++ " ---" ++ nl ++
  str_take 1500 content ++
  nl ++ "--- End of " ++ path ++ " ---" ++ nl.

(** [context] after the loop over [important_files.items()]. *)
Definition build_context (repo_data : RepoData.t) : string :=
  fold_left
    (fun context item => context ++ file_block (fst item) (snd item))
    (RepoData.important_files repo_data)
    (context_header repo_data).

Definition analyst_instructions : string :=
  nl ++
  "            You are an expert GitHub repository analyst who will use the `summarize_text` tool." ++ nl ++
  "            - For the 'summary' parameter, you MUST provide a detailed overview covering the project's purpose, main functionality, and target audience." ++ nl ++
  "            - For the 'key_points' parameter, you MUST create a bulleted list of the top 3-5 technical features, the core technologies used, and the essential 'getting started' commands." ++ nl ++
  "            ".

Definition build_prompt (repo_data : RepoData.t) : string :=
  "Please provide a comprehensive analysis of the following repository context:"
    ++ nl ++ build_context repo_data.

Definition build_request (repo_data : RepoData.t) (api_key : string) : ai_request :=
  {| agent_name := "Expert Repo Analyst";
     instructions := analyst_instructions;
     model := "meta-llama/Llama-3.3-70B-Instruct";
     req_api_key := api_key;
     base_url := "https://api.intelligence.io.solutions/api/v1";
     objective := build_prompt repo_data;
     client_mode := false;
     max_words := 600 |}.

(** The one round trip: [await workflow.summarize_text(...).run_tasks()]. *)
Definition run_tasks (service : ai_service) (req : ai_request) : io pyval :=
  (service req, [ai_run_tasks req]).

Definition ai_error_prefix : string :=
  "An error occurred with the AI analysis. Please check your IO Intelligence API key. Details: ".

Definition run_ai_analysis (service : ai_service) (repo_data : RepoData.t)
  (api_key : string) : io analysis :=
  try_except
    (response <- run_tasks service (build_request repo_data api_key) ;;
     results <- getitem response "results" ;;
     results_object <- getitem results "summarize_text" ;;
     summary <- getattr results_object "summary" ;;
     key_points <- getattr results_object "key_points" ;;
     ret {| overview := summary; features := key_points |})
    is_Exception
    (fun e => raise (Exception (ai_error_prefix ++ str_exn e))).

(** ** The pipeline: the [try] block of [main] *)

Definition lift {A : Type} (r : result A) : io A := (r, []).

Definition main_try (connect : string -> Github) (service : ai_service)
  (github_token iointel_api_key repo_url : string)
  : io (RepoData.t * analysis) :=
  repo_name <- lift (validate_repo_url repo_url) ;;
  let g := connect github_token in
  repo_data <- fetch_repo_data g repo_name ;;
  ai_results <- run_ai_analysis service repo_data iointel_api_key ;;
  ret (repo_data, ai_results).

(** ** The page: [main]

    One run of the script.  The inputs are what the widgets hold, the
    state is [st.session_state].  The fixed widgets and the progress
    messages ([st.title], [st.write], [st.status]) have no part in what
    follows and are left out of the log; the result view (the body of the
    last [if]) is one event that carries the two values it reads from the
    session. *)
Module Session.
Record t : Type := mk {
  repo_data : option RepoData.t;
  ai_results : option analysis;
  analysis_complete : option bool
}.
End Session.

Module Inputs.
Record t : Type := mk {
  github_token : string;
  iointel_api_key : string;
  repo_url : string;
  button : bool          (* [st.button("Analyze Repository")] *)
}.
End Inputs.

Inductive page_event : Type :=
| outside (e : event)              (* a request, or [st.warning] *)
| st_error (msg : string)
| show_results (repo_data : RepoData.t) (ai_results : analysis).

(** How a run ends: at its last line, at [st.stop()], or with an
    exception nobody catches. *)
Inductive ending : Type :=
| Done
| Stopped
| Uncaught (e : exn).

(** [not s] for a string. *)
Definition py_not (s : string) : bool :=
  match s with
  | EmptyString => true
  | String _ _ => false
  end.

Definition missing_keys_warning : string :=
  "Please enter both your GitHub Token and IO Intelligence API Key in the sidebar.".
Definition missing_url_warning : string := "Please enter a repository URL.".

(** The [except Exception as e] branch of [main]. *)
Definition on_exception (e : exn) (session : Session.t) (log : list page_event)
  : Session.t * list page_event :=
  (Session.mk (Session.repo_data session) (Session.ai_results session) (Some false),
   (log ++ [st_error ("An error occurred: " ++ str_exn e)])%list).

(** The [try] statement of [main], with its writes to the session. *)
Definition analysis_block (connect : string -> Github) (service : ai_service)
  (inputs : Inputs.t) (session : Session.t) : Session.t * list page_event :=
  match validate_repo_url (Inputs.repo_url inputs) with
  | Raise e => on_exception e session []
  | Return repo_name =>
      let g := connect (Inputs.github_token inputs) in
      match fetch_repo_data g repo_name with
      | (Raise e, log1) => on_exception e session (map outside log1)
      | (Return repo_data, log1) =>
          let session1 :=
            Session.mk (Some repo_data) (Session.ai_results session)
              (Session.analysis_complete session) in
          match run_ai_analysis service repo_data (Inputs.iointel_api_key inputs) with
          | (Raise e, log2) =>
              on_exception e session1 (map outside (log1 ++ log2))
          | (Return ai_results, log2) =>
              (Session.mk (Some repo_data) (Some ai_results) (Some true),
               map outside (log1 ++ log2))
          end
      end
  end.

(** The last [if] of [main].  Reading an attribute that the session does
    not have raises [AttributeError]. *)
Definition results_block (session : Session.t) : list page_event * ending :=
  match Session.analysis_complete session with
  | Some true =>
      match Session.repo_data session with
      | None => ([], Uncaught (AttributeError "repo_data"))
      | Some repo_data =>
          match Session.ai_results session with
          | None => ([], Uncaught (AttributeError "ai_results"))
          | Some ai_results => ([show_results repo_data ai_results], Done)
          end
      end
  | _ => ([], Done)
  end.

Definition main (connect : string -> Github) (service : ai_service)
  (inputs : Inputs.t) (session : Session.t)
  : Session.t * list page_event * ending :=
  if Inputs.button inputs then
    if py_not (Inputs.github_token inputs) || py_not (Inputs.iointel_api_key inputs)
    then (session, [outside (st_warning missing_keys_warning)], Stopped)
    else if py_not (Inputs.repo_url inputs)
    then (session, [outside (st_warning missing_url_warning)], Stopped)
    else
      let (session', log) := analysis_block connect service inputs session in
      let (shown, how) := results_block session' in
      (session', (log ++ shown)%list, how)
  else
    let (shown, how) := results_block session in
    (session, shown, how).

(** The world of one run, and a sequence of runs on one session. *)
Record run : Type := mk_run {
  run_connect : string -> Github;
  run_service : ai_service;
  run_inputs : Inputs.t
}.


(** ** The wide world

    Above, a call to the forge answers or raises [GithubException], and
    the import of [iointel] succeeds.  The program can meet more: a request
    can raise an exception of another class (a connection error of the
    HTTP layer; the [AssertionError] of PyGithub when the content of a file
    comes with an encoding other than base64), and
    [from iointel import Agent, Workflow], the first statement of
    [run_ai_analysis], can fail.  A [trouble] says what is raised, and
    where; the functions below are the same functions of [app.py] run in
    such a world, and with [no_trouble] they are the functions above. *)
Record trouble : Type := mk_trouble {
  other : event -> option exn;     (* what a request raises instead of answering *)
  import_error : option exn        (* what the import of [iointel] raises *)
}.

Definition no_trouble : trouble := mk_trouble (fun _ => None) None.

Module Wide.

Definition forge {A : Type} (w : trouble) (what : event)
  (answer : forge_answer A) : io A :=
  match other w what with
  | Some e => (Raise e, [what])
  | None => forge what answer
  end.

Definition read_file (w : trouble) (max_file_size : Z)
  (content_file : ContentFile.t) (file_contents : dict string)
  : io (dict string) :=
  if (ContentFile.size content_file >? max_file_size)%Z then
    ret (dict_set (ContentFile.path content_file)
           (too_large_message max_file_size) file_contents)
  else
    try_except
      (raw <- forge w (forge_decoded_content (ContentFile.path content_file))
                (ContentFile.decoded_content content_file) ;;
       decoded_content <- decode_utf8 raw ;;
       ret (dict_set (ContentFile.path content_file) decoded_content file_contents))
      is_UnicodeDecodeError_or_GithubException
      (fun _ =>
         ret (dict_set (ContentFile.path content_file)
                could_not_decode_message file_contents)).

(** The inner handler catches every [GithubException] of the loop, so the
    outer handler still runs for the listing only, with [file_contents]
    empty; an exception of another class leaves the function. *)
Definition get_important_file_content (w : trouble) (repo : Repository.t)
  (max_files max_file_size : Z) : io (dict string) :=
  let file_contents : dict string := [] in
  try_except
    (contents <- forge w (forge_get_contents "") (Repository.get_contents repo "") ;;
     for_each (slice_to max_files (files_to_check contents))
       (read_file w max_file_size) file_contents)
    is_GithubException
    (fun e =>
       emit (st_warning ("Could not fetch some file contents: " ++ str_exn e)) ;;;
       ret file_contents).

Definition fetch_repo_data (w : trouble) (g : Github) (repo_name : string)
  : io RepoData.t :=
  try_except
    (repo <- forge w (forge_get_repo repo_name) (get_repo g repo_name) ;;
     languages <- forge w forge_get_languages (Repository.get_languages repo) ;;
     let tech_stack := dict_keys languages in
     important_files <- get_important_file_content w repo 7 15000 ;;
     topics <- forge w forge_get_topics (Repository.get_topics repo) ;;
     ret {| RepoData.name := Repository.name repo;
            RepoData.owner := Repository.owner_login repo;
            RepoData.description :=
              py_or (Repository.description repo) no_description;
            RepoData.url := Repository.html_url repo;
            RepoData.language := py_or (Repository.language repo) not_specified;
            RepoData.tech_stack := tech_stack;
            RepoData.stars := Repository.stargazers_count repo;
            RepoData.forks := Repository.forks_count repo;
            RepoData.topics := topics;
            RepoData.important_files := important_files |})
    is_GithubException
    (fun e => raise (fetch_error e)).

(** The import comes first, outside the [try]. *)
Definition run_ai_analysis (w : trouble) (service : ai_service)
  (repo_data : RepoData.t) (api_key : string) : io analysis :=
  match import_error w with
  | Some e => raise e
  | None => run_ai_analysis service repo_data api_key
  end.

Definition main_try (w : trouble) (connect : string -> Github)
  (service : ai_service) (github_token iointel_api_key repo_url : string)
  : io (RepoData.t * analysis) :=
  repo_name <- lift (validate_repo_url repo_url) ;;
  let g := connect github_token in
  repo_data <- fetch_repo_data w g repo_name ;;
  ai_results <- run_ai_analysis w service repo_data iointel_api_key ;;
  ret (repo_data, ai_results).

End Wide.

(** * Vocabulary of the statements *)

(** ** URLs *)

(** The longest prefix of [s] without [c], and what follows it. *)
Fixpoint span (c : ascii) (s : string) : string * string :=
  match s with
  | EmptyString => ("", "")
  | String a s' =>
      if Ascii.eqb a c then ("", s)
      else let (p, r) := span c s' in (String a p, r)
  end.

Fixpoint strip_prefix (p s : string) : option string :=
  match p with
  | EmptyString => Some s
  | String c p' =>
      match s with
      | String a s' => if Ascii.eqb a c then strip_prefix p' s' else None
      | EmptyString => None
      end
  end.

(** The two leading path components of [s] and the rest, when both
    components are there and not empty. *)
Definition components (s : string) : option (string * string * string) :=
  match span "/" s with
  | (String a o, String _ s') =>
      match span "/" s' with
      | (String b r, rest) => Some (String a o, String b r, rest)
      | _ => None
      end
  | _ => None
  end.

(** What follows [http] in the pattern, once the optional [s] is decided. *)
Definition after_scheme (s : string) : option (list string) :=
  match strip_prefix "://github.com/" s with
  | Some s' =>
      match components s' with
      | Some (o, r, _) => Some [o; r]
      | None => None
      end
  | None => None
  end.

(** [url] is [http://github.com/owner/repo] or
    [https://github.com/owner/repo], followed by nothing or by [/...];
    [owner] and [repo] are non-empty and hold no [/]. *)
Definition github_url (url owner repo rest : string) : Prop :=
  (url = "http://github.com/" ++ owner ++ "/" ++ repo ++ rest \/
   url = "https://github.com/" ++ owner ++ "/" ++ repo ++ rest) /\
  owner <> "" /\ no_char "/" owner = true /\
  repo <> "" /\ no_char "/" repo = true /\
  at_boundary "/" rest = true.

(** The pattern as the specification words it:
    [https://<host>/<owner>/<repo>] with optional trailing path
    segments. *)
Definition spec_url_pattern (url : string) : Prop :=
  exists host owner repo rest,
    url = "https://" ++ host ++ "/" ++ owner ++ "/" ++ repo ++ rest /\
    host <> "" /\ no_char "/" host = true /\
    owner <> "" /\ no_char "/" owner = true /\
    repo <> "" /\ no_char "/" repo = true /\
    at_boundary "/" rest = true.

(** ** File selection *)

Definition is_regular_file (f : ContentFile.t) : bool :=
  String.eqb (ContentFile.type f) "file".

(** Ascending order of the keys: [b] is not smaller than [a]. *)
Definition key_le (a b : sort_key) : Prop := key_lt b a = false.

Definition key_order {A : Type} (key : A -> sort_key) (x y : A) : Prop :=
  key_le (key x) (key y).

Definition by_priority : ContentFile.t -> ContentFile.t -> Prop :=
  key_order priority_key.

Definition has_key (k : sort_key) (f : ContentFile.t) : bool :=
  key_eqb (priority_key f) k.

(** The files the loop visits. *)
Definition selected_files (contents : list ContentFile.t) (max_files : Z)
  : list ContentFile.t :=
  slice_to max_files (files_to_check contents).

(** The text the loop body stores for a file ... *)
Definition file_entry (max_file_size : Z) (f : ContentFile.t) : string :=
  if (ContentFile.size f >? max_file_size)%Z then too_large_message max_file_size
  else match ContentFile.decoded_content f with
       | Ok (Utf8 text) => text
       | Ok (NotUtf8 _) | Fails _ => could_not_decode_message
       end.

(** ... and the requests it makes for it. *)
Definition file_events (max_file_size : Z) (f : ContentFile.t) : list event :=
  if (ContentFile.size f >? max_file_size)%Z then []
  else [forge_decoded_content (ContentFile.path f)].

Definition write_entries (max_file_size : Z) (l : list ContentFile.t)
  (d : dict string) : dict string :=
  fold_left
    (fun d f => dict_set (ContentFile.path f) (file_entry max_file_size f) d) l d.

(** What is stored for a file whose content is requested. *)
Definition decoded_or_placeholder (f : ContentFile.t) : string :=
  match ContentFile.decoded_content f with
  | Ok (Utf8 text) => text
  | Ok (NotUtf8 _) | Fails _ => could_not_decode_message
  end.

Definition listing_warning (e : GithubException) : string :=
  "Could not fetch some file contents: " ++ gh_text e.

(** A regular file of the root directory called [n]: in the root, the
    path of an entry is its name. *)
Definition root_file (n : string) (f : ContentFile.t) : Prop :=
  ContentFile.type f = "file" /\ ContentFile.name f = n /\ ContentFile.path f = n.

Definition listed (f : ContentFile.t) : bool :=
  str_in (ContentFile.name f) priority_files.

(** ** Fetching *)

(** The forge refuses, with [e], one of the three calls whose failure
    reaches the handler of [fetch_repo_data]. *)
Definition forge_refuses (g : Github) (repo_name : string)
  (e : GithubException) : Prop :=
  get_repo g repo_name = Fails e \/
  exists repo,
    get_repo g repo_name = Ok repo /\
    (Repository.get_languages repo = Fails e \/
     exists languages,
       Repository.get_languages repo = Ok languages /\
       Repository.get_topics repo = Fails e).

(** The message chosen for a status. *)
Definition status_message (e : GithubException) : string :=
  if (status e =? 404)%Z then not_found_message
  else if (status e =? 401)%Z then auth_error_message
  else fetch_error_prefix ++ gh_text e.

(** ** The prompt *)

Definition concat_blocks (items : dict string) : string :=
  fold_right (fun item rest => file_block (fst item) (snd item) ++ rest) "" items.

(** ** The AI response *)

(** [v[key]] and [v.attr] when they exist. *)
Definition subscript (v : pyval) (key : string) : option pyval :=
  match v with
  | PyDict items => dict_get key items
  | _ => None
  end.

Definition attribute (v : pyval) (attr : string) : option pyval :=
  match v with
  | PyObject _ attrs => dict_get attr attrs
  | _ => None
  end.

(** [response["results"]["summarize_text"]] *)
Definition results_object (response : pyval) : option pyval :=
  match subscript response "results" with
  | Some results => subscript results "summarize_text"
  | None => None
  end.

(** The specification's invariant on a result: [keyPoints] is a
    non-empty sequence. *)
Definition key_points_non_empty (a : analysis) : Prop :=
  exists point points, features a = PyList (point :: points).

(** ** Sample data *)
Module Sample.

Definition file (n : string) (size : Z) (content : forge_answer bytes)
  : ContentFile.t :=
  ContentFile.mk "file" n n size content.

Definition repository (desc lang : option string)
  (listing : forge_answer (list ContentFile.t)) : Repository.t :=
  Repository.mk "hello-world" "octocat" desc
    "https://github.com/octocat/hello-world" lang 3 1
    (Ok [("Ruby", 100%Z)]) (Ok ["demo"]) (fun _ => listing).

Definition readme : ContentFile.t := file "README.md" 30 (Ok (Utf8 "hello")).
Definition random : ContentFile.t := file "random.txt" 10 (Ok (Utf8 "text")).
Definition package : ContentFile.t := file "package.json" 20 (Ok (Utf8 "{}")).
Definition big : ContentFile.t := file "pom.xml" 15001 (Ok (Utf8 "<xml/>")).
Definition edge : ContentFile.t := file "main.py" 15000 (Ok (Utf8 "pass")).
Definition binary : ContentFile.t := file "logo.png" 99 (Ok (NotUtf8 "0x89")).
Definition gone : ContentFile.t :=
  file "app.py" 99 (Fails (mkGithubException 500 "500 Server Error")).

Definition three_files : list ContentFile.t := [random; package; readme].
Definition mixed_files : list ContentFile.t := [binary; big; gone; edge; readme].

Definition forge_of (repo : Repository.t) : Github := mkGithub (fun _ => Ok repo).

Definition summary_result (key_points : pyval) : pyval :=
  PyDict [("results",
           PyDict [("summarize_text",
                    PyObject "SummaryResult"
                      [("summary", PyStr "A demo repository.");
                       ("key_points", key_points)])])].

Definition no_key_points : pyval :=
  PyDict [("results",
           PyDict [("summarize_text",
                    PyObject "SummaryResult"
                      [("summary", PyStr "A demo repository.")])])].

Definition data : RepoData.t :=
  RepoData.mk "hello-world" "octocat" "My first repo"
    "https://github.com/octocat/hello-world" "Ruby" ["Ruby"] 3 1 ["demo"]
    [("README.md", "hello")].

End Sample.

(** ** Requests, sizes and sessions *)

Definition is_content_request (e : event) : bool :=
  match e with
  | forge_decoded_content _ => true
  | _ => false
  end.


(** The index a file sorts by, when it has one. *)
Definition key_index (f : ContentFile.t) : nat :=
  match priority_key f with
  | Index i => i
  | Inf => 0
  end.

(** The number of characters one entry of [important_files] adds to the
    prompt. *)
Definition block_length (item : string * string) : nat :=
  36 + 2 * String.length (fst item) + Nat.min 1500 (String.length (snd item)).


(** ** The wide world: what a call does *)

(** What a request gives in the wide world. *)
Definition outcome {A : Type} (w : trouble) (what : event)
  (answer : forge_answer A) : result A :=
  fst (Wide.forge w what answer).

(** [content_file.decoded_content.decode('utf-8')] *)
Definition content_read (w : trouble) (f : ContentFile.t) : result string :=
  match outcome w (forge_decoded_content (ContentFile.path f))
          (ContentFile.decoded_content f) with
  | Return (Utf8 text) => Return text
  | Return (NotUtf8 reason) => Raise (UnicodeDecodeError reason)
  | Raise e => Raise e
  end.

(** The read of the content of [f], when the loop comes to it, raises
    nothing that the inner handler lets through. *)
Definition no_escape (w : trouble) (max_file_size : Z) (f : ContentFile.t)
  : Prop :=
  (ContentFile.size f <= max_file_size)%Z ->
  forall e, content_read w f = Raise e ->
            is_UnicodeDecodeError_or_GithubException e = true.

(** The text stored for a file whose read does not escape. *)
Definition wide_entry (w : trouble) (max_file_size : Z) (f : ContentFile.t)
  : string :=
  if (ContentFile.size f >? max_file_size)%Z then too_large_message max_file_size
  else match content_read w f with
       | Return text => text
       | Raise _ => could_not_decode_message
       end.

Definition set_entries (entry : ContentFile.t -> string)
  (l : list ContentFile.t) (d : dict string) : dict string :=
  fold_left (fun d f => dict_set (ContentFile.path f) (entry f) d) l d.

(** The lookup, the language breakdown or the topics call raises the
    [GithubException] [e] (the earlier calls having answered, and the
    selector having returned). *)
Definition wide_refuses (w : trouble) (g : Github) (repo_name : string)
  (e : GithubException) : Prop :=
  outcome w (forge_get_repo repo_name) (get_repo g repo_name)
    = Raise (GithubExc e) \/
  exists repo,
    outcome w (forge_get_repo repo_name) (get_repo g repo_name) = Return repo /\
    (outcome w forge_get_languages (Repository.get_languages repo)
       = Raise (GithubExc e) \/
     exists languages important_files,
       outcome w forge_get_languages (Repository.get_languages repo)
         = Return languages /\
       fst (Wide.get_important_file_content w repo 7 15000)
         = Return important_files /\
       outcome w forge_get_topics (Repository.get_topics repo)
         = Raise (GithubExc e)).

(** ** Where a shown result comes from *)




(** ** More sample data *)
Module Scenario.

Definition dir (n : string) : ContentFile.t :=
  ContentFile.mk "dir" n n 0 (Fails (mkGithubException 500 "not a file")).

Definition src : ContentFile.t := dir "src".
Definition dockerfile : ContentFile.t :=
  Sample.file "Dockerfile" 40 (Ok (Utf8 "FROM scratch")).

Definition listing : list ContentFile.t :=
  [Sample.random; src; dockerfile; Sample.package; Sample.readme].

Definition repo : Repository.t :=
  Sample.repository (Some "My first repo") (Some "Ruby") (Ok listing).

Definition bare_repo : Repository.t :=
  Sample.repository (Some "") None (Ok []).

Definition service : ai_service :=
  fun _ => Return (Sample.summary_result (PyList [PyStr "Simple structure"])).


Definition connect (repo : Repository.t) : string -> Github :=
  fun _ => Sample.forge_of repo.


Definition good_url : string := "https://github.com/octocat/hello-world".




End Scenario.

(** ** Sample data for the wide world *)
Module Storm.

(** PyGithub asserts that the content it decodes is base64; GitHub sends
    the content of a file above one megabyte with the encoding [none]. *)
Definition unsupported : exn := AssertionError "unsupported encoding: none".

Definition small_readme : ContentFile.t :=
  Sample.file "README.md" 100 (Ok (Utf8 "")).

(** Reading the content of README.md raises [unsupported]. *)
Definition readme_unreadable : trouble :=
  mk_trouble
    (fun ev =>
       match ev with
       | forge_decoded_content p =>
           if String.eqb p "README.md" then Some unsupported else None
       | _ => None
       end)
    None.

Definition no_iointel : trouble :=
  mk_trouble (fun _ => None) (Some (Exception "No module named 'iointel'")).

Definition small_repo : Repository.t :=
  Sample.repository None None (Ok [Sample.package; small_readme]).

Definition refused (code : Z) (text : string) : Repository.t :=
  Sample.repository None None (Fails (mkGithubException code text)).

End Storm.

(** * Theorems *)

(** ** Strings *)

Lemma string_length_app (s t : string) :
  String.length (s ++ t) = String.length s + String.length t.
Proof.
  induction s as [|a s IH]; simpl; [reflexivity | now rewrite IH].
Qed.

Lemma str_take_app (p r : string) : str_take (String.length p) (p ++ r) = p.
Proof.
  unfold str_take.
  induction p as [|a p IH]; simpl.
  - destruct r; reflexivity.
  - now rewrite IH.
Qed.

Lemma str_take_length (n : nat) (s : string) :
  String.length (str_take n s) = Nat.min n (String.length s).
Proof.
  unfold str_take. revert n.
  induction s as [|a s IH]; intros [|n]; simpl; try reflexivity.
  now rewrite IH.
Qed.

Lemma str_take_prefix (n : nat) (s : string) :
  exists t, s = str_take n s ++ t.
Proof.
  unfold str_take. revert n.
  induction s as [|a s IH]; intros [|n]; simpl.
  - now exists "".
  - now exists "".
  - now exists (String a s).
  - destruct (IH n) as [t Ht]. exists t. now rewrite <- Ht.
Qed.

Lemma str_take_all (n : nat) (s : string) :
  String.length s <= n -> str_take n s = s.
Proof.
  unfold str_take. revert n.
  induction s as [|a s IH]; intros [|n] H; simpl in *; try reflexivity; try lia.
  rewrite IH by lia. reflexivity.
Qed.

Lemma span_app (c : ascii) (s : string) : fst (span c s) ++ snd (span c s) = s.
Proof.
  induction s as [|a s IH]; simpl; [reflexivity|].
  destruct (Ascii.eqb a c); [reflexivity|].
  destruct (span c s) as [p r]; simpl in *. now rewrite IH.
Qed.

Lemma span_no_char (c : ascii) (s : string) : no_char c (fst (span c s)) = true.
Proof.
  induction s as [|a s IH]; simpl; [reflexivity|].
  destruct (Ascii.eqb a c) eqn:E; [reflexivity|].
  destruct (span c s) as [p r]; simpl in *. now rewrite E.
Qed.

Lemma span_boundary (c : ascii) (s : string) :
  at_boundary c (snd (span c s)) = true.
Proof.
  induction s as [|a s IH]; simpl; [reflexivity|].
  destruct (Ascii.eqb a c) eqn:E; [simpl; now rewrite E|].
  now destruct (span c s) as [p r].
Qed.

Lemma span_unique (c : ascii) (p r : string) :
  no_char c p = true -> at_boundary c r = true -> span c (p ++ r) = (p, r).
Proof.
  induction p as [|a p IH]; simpl; intros Hp Hr.
  - destruct r as [|b r]; simpl in *; [reflexivity | now rewrite Hr].
  - apply andb_true_iff in Hp as [Ha Hp].
    apply negb_true_iff in Ha. rewrite Ha, (IH Hp Hr). reflexivity.
Qed.

Lemma strip_prefix_app (p s : string) : strip_prefix p (p ++ s) = Some s.
Proof.
  induction p as [|c p IH]; simpl; [reflexivity|].
  now rewrite Ascii.eqb_refl.
Qed.

Lemma strip_prefix_inv (p s s' : string) :
  strip_prefix p s = Some s' -> s = p ++ s'.
Proof.
  revert s. induction p as [|c p IH]; simpl; intros s H.
  - now inversion H.
  - destruct s as [|a s]; [discriminate|].
    destruct (Ascii.eqb_spec a c) as [->|]; [|discriminate].
    now rewrite (IH _ H).
Qed.

(** ** The regular expression matcher *)

Lemma run_lit (p s : string) (k : Re.cont) (g : list string) :
  Re.run (Re.lit p) s k g =
  match strip_prefix p s with
  | Some s' => k s' g
  | None => None
  end.
Proof.
  revert s. induction p as [|c p IH]; intros s; simpl; [reflexivity|].
  destruct s as [|a s]; [reflexivity|].
  destruct (Ascii.eqb a c); [apply IH | reflexivity].
Qed.

(** When the continuation accepts what follows the longest run, the
    greedy star stops there. *)
Lemma not_chr_star_greedy (c : ascii) (s : string) (k : Re.cont)
  (g x : list string) :
  k (snd (span c s)) g = Some x -> Re.not_chr_star c s k g = Some x.
Proof.
  induction s as [|a s IH]; simpl; [trivial|].
  destruct (Ascii.eqb a c); [trivial|].
  destruct (span c s) as [p r]; simpl in *.
  intros H. now rewrite (IH H).
Qed.

(** When the continuation refuses every input that starts with a
    character other than [c], backing off never helps. *)
Lemma not_chr_star_backoff (c : ascii) (s : string) (k : Re.cont)
  (g : list string) :
  (forall a s', Ascii.eqb a c = false -> k (String a s') g = None) ->
  Re.not_chr_star c s k g = k (snd (span c s)) g.
Proof.
  intros Hk. induction s as [|a s IH]; simpl; [reflexivity|].
  destruct (Ascii.eqb a c) eqn:E; [reflexivity|].
  rewrite IH, (Hk _ _ E).
  destruct (span c s) as [p r]; simpl.
  now destruct (k r g).
Qed.

Lemma span_taken (c : ascii) (s : string) :
  str_take (String.length s - String.length (snd (span c s))) s = fst (span c s).
Proof.
  rewrite <- (span_app c s) at 1 3.
  rewrite string_length_app, Nat.add_sub.
  apply str_take_app.
Qed.

(** The two groups and the slash between them. *)
Lemma run_components (s : string) (g : list string) :
  Re.run (Re.Cat (Re.Group (Re.NotChrPlus "/"))
            (Re.Cat (Re.Chr "/") (Re.Group (Re.NotChrPlus "/"))))
    s (fun _ g' => Some g') g =
  match components s with
  | Some (o, r, _) => Some (g ++ [o; r])%list
  | None => None
  end.
Proof.
  unfold components. cbn [Re.run].
  destruct s as [|a s]; [reflexivity|].
  cbn [span]. destruct (Ascii.eqb a "/") eqn:Ea; [reflexivity|].
  rewrite not_chr_star_backoff.
  2:{ intros b t Hb. now rewrite Hb. }
  pose proof (span_taken "/" (String a s)) as Ho.
  cbn [span] in Ho. rewrite Ea in Ho.
  pose proof (span_boundary "/" s) as Hb.
  destruct (span "/" s) as [o t]; cbn [fst snd] in *.
  destruct t as [|b t]; [reflexivity|].
  cbn [at_boundary] in Hb. rewrite Hb.
  destruct t as [|d t]; [reflexivity|].
  cbn [span]. destruct (Ascii.eqb d "/") eqn:Ed; [reflexivity|].
  pose proof (span_taken "/" (String d t)) as Hr.
  cbn [span] in Hr. rewrite Ed in Hr.
  destruct (span "/" t) as [r rest] eqn:Et; cbn [fst snd] in *.
  erewrite not_chr_star_greedy; [reflexivity|].
  rewrite Et. cbn [snd]. rewrite Ho, Hr, <- app_assoc. reflexivity.
Qed.

Lemma re_match_pattern (url : string) :
  Re.re_match pattern url =
  match strip_prefix "http" url with
  | Some s1 =>
      match
        match strip_prefix "s" s1 with
        | Some s2 => after_scheme s2
        | None => None
        end
      with
      | Some g => Some g
      | None => after_scheme s1
      end
  | None => None
  end.
Proof.
  assert (Htail : forall s,
    Re.run (Re.Cat (Re.lit "://github.com/")
              (Re.Cat (Re.Group (Re.NotChrPlus "/"))
                 (Re.Cat (Re.Chr "/") (Re.Group (Re.NotChrPlus "/")))))
      s (fun _ g' => Some g') [] = after_scheme s).
  { intros s. unfold after_scheme.
    change (Re.run (Re.Cat ?a ?b) s ?k ?g)
      with (Re.run a s (fun s' g' => Re.run b s' k g') g).
    rewrite run_lit.
    destruct (strip_prefix "://github.com/" s) as [s'|]; [|reflexivity].
    rewrite run_components.
    destruct (components s') as [[[o r] rest]|]; reflexivity. }
  unfold Re.re_match, pattern.
  change (Re.run (Re.Cat ?a ?b) url ?k ?g)
    with (Re.run a url (fun s' g' => Re.run b s' k g') g).
  rewrite run_lit.
  destruct (strip_prefix "http" url) as [s1|]; [|reflexivity].
  change (Re.run (Re.Cat (Re.Opt ?a) ?b) s1 ?k ?g)
    with (match Re.run a s1 (fun s' g' => Re.run b s' k g') g with
          | Some x => Some x
          | None => Re.run b s1 k g
          end).
  rewrite Htail.
  destruct s1 as [|a s1]; [reflexivity|].
  change (Re.run (Re.Chr "s") (String a s1) ?k ?g)
    with (if Ascii.eqb a "s" then k s1 g else None).
  cbn [strip_prefix].
  destruct (Ascii.eqb a "s"); [now rewrite Htail | reflexivity].
Qed.

(** ** URL validator *)

Lemma components_shape (owner repo rest : string) :
  owner <> "" -> no_char "/" owner = true ->
  repo <> "" -> no_char "/" repo = true ->
  at_boundary "/" rest = true ->
  components (owner ++ "/" ++ repo ++ rest) = Some (owner, repo, rest).
Proof.
  intros Ho Hno Hr Hnr Hrest. unfold components.
  rewrite (span_unique "/" owner ("/" ++ repo ++ rest) Hno eq_refl).
  destruct owner as [|a o]; [congruence|].
  cbn [append]. rewrite (span_unique "/" repo rest Hnr Hrest).
  destruct repo as [|b r]; [congruence | reflexivity].
Qed.

Lemma components_inv (s o r t : string) :
  components s = Some (o, r, t) ->
  s = o ++ "/" ++ r ++ t /\
  o <> "" /\ no_char "/" o = true /\
  r <> "" /\ no_char "/" r = true /\ at_boundary "/" t = true.
Proof.
  unfold components.
  pose proof (span_app "/" s) as Hs.
  pose proof (span_no_char "/" s) as Hn.
  pose proof (span_boundary "/" s) as Hb.
  destruct (span "/" s) as [[|a o'] [|b s']]; cbn [fst snd] in *; try discriminate.
  pose proof (span_app "/" s') as Hs'.
  pose proof (span_no_char "/" s') as Hn'.
  pose proof (span_boundary "/" s') as Hb'.
  destruct (span "/" s') as [[|d r'] t']; cbn [fst snd] in *; try discriminate.
  intros H. inversion H; subst o r t. clear H.
  cbn [at_boundary] in Hb. apply Ascii.eqb_eq in Hb. subst b.
  repeat split; try assumption; try discriminate.
  rewrite <- Hs, <- Hs'. reflexivity.
Qed.

Lemma after_scheme_inv (s : string) (g : list string) :
  after_scheme s = Some g ->
  exists o r t,
    s = "://github.com/" ++ o ++ "/" ++ r ++ t /\ g = [o; r] /\
    o <> "" /\ no_char "/" o = true /\
    r <> "" /\ no_char "/" r = true /\ at_boundary "/" t = true.
Proof.
  unfold after_scheme.
  destruct (strip_prefix "://github.com/" s) as [s'|] eqn:Hs; [|discriminate].
  destruct (components s') as [[[o r] t]|] eqn:Hc; [|discriminate].
  intros H. inversion H; subst g.
  apply strip_prefix_inv in Hs. apply components_inv in Hc.
  destruct Hc as (-> & Hc). exists o, r, t. split; [exact Hs|]. split; [reflexivity | exact Hc].
Qed.

Lemma after_scheme_shape (owner repo rest : string) :
  owner <> "" -> no_char "/" owner = true ->
  repo <> "" -> no_char "/" repo = true ->
  at_boundary "/" rest = true ->
  after_scheme ("://github.com/" ++ owner ++ "/" ++ repo ++ rest)
  = Some [owner; repo].
Proof.
  intros. unfold after_scheme.
  rewrite strip_prefix_app, components_shape by assumption. reflexivity.
Qed.

(** Whenever the match succeeds the URL has the shape [github_url], and
    the two groups are its owner and repository. *)
Lemma re_match_pattern_inv (url : string) (g : list string) :
  Re.re_match pattern url = Some g ->
  exists owner repo rest, github_url url owner repo rest /\ g = [owner; repo].
Proof.
  rewrite re_match_pattern.
  destruct (strip_prefix "http" url) as [s1|] eqn:H1; [|discriminate].
  apply strip_prefix_inv in H1.
  destruct (strip_prefix "s" s1) as [s2|] eqn:H2.
  - apply strip_prefix_inv in H2.
    destruct (after_scheme s2) as [g2|] eqn:H3.
    + intros H; inversion H; subst g2.
      apply after_scheme_inv in H3 as (o & r & t & -> & -> & Hc).
      exists o, r, t. split; [|reflexivity].
      split; [right; subst; reflexivity | exact Hc].
    + intros H3'.
      apply after_scheme_inv in H3' as (o & r & t & -> & -> & Hc).
      exists o, r, t. split; [|reflexivity].
      split; [left; subst; reflexivity | exact Hc].
  - intros H3'.
    apply after_scheme_inv in H3' as (o & r & t & -> & -> & Hc).
    exists o, r, t. split; [|reflexivity].
    split; [left; subst; reflexivity | exact Hc].
Qed.

Lemma re_match_pattern_shape (url owner repo rest : string) :
  github_url url owner repo rest ->
  Re.re_match pattern url = Some [owner; repo].
Proof.
  intros ([-> | ->] & Ho & Hno & Hr & Hnr & Hrest); rewrite re_match_pattern.
  - change (strip_prefix "http" ("http://github.com/" ++ ?x))
      with (Some ("://github.com/" ++ x)).
    cbn [strip_prefix append]. cbn.
    now apply after_scheme_shape.
  - change (strip_prefix "http" ("https://github.com/" ++ ?x))
      with (Some ("s://github.com/" ++ x)).
    cbn beta iota.
    change (strip_prefix "s" ("s://github.com/" ++ ?x))
      with (Some ("://github.com/" ++ x)).
    cbn beta iota.
    now rewrite after_scheme_shape.
Qed.

(** C1, as the code has it: [validate_repo_url] succeeds exactly on the
    strings that start with [http://github.com/owner/repo] or
    [https://github.com/owner/repo], where owner and repo are non-empty
    and free of slashes and are followed by nothing or by a slash; it then
    returns ["owner/repo"], whatever follows.  On every other string it
    raises [ValueError] with the invalid-URL message, and the pipeline
    stops there without any event (no network call). *)
Theorem validate_repo_url_github (url : string) :
  (forall owner repo rest,
      github_url url owner repo rest ->
      validate_repo_url url = Return (owner ++ "/" ++ repo)) /\
  ((forall owner repo rest, ~ github_url url owner repo rest) ->
      validate_repo_url url = Raise (ValueError invalid_url_message)) /\
  (forall e connect service github_token iointel_api_key,
      validate_repo_url url = Raise e ->
      main_try connect service github_token iointel_api_key url = (Raise e, [])).
Proof.
  split; [|split].
  - intros owner repo rest H. unfold validate_repo_url.
    now rewrite (re_match_pattern_shape _ _ _ _ H).
  - intros H. unfold validate_repo_url.
    destruct (Re.re_match pattern url) as [g|] eqn:Hm; [|reflexivity].
    apply re_match_pattern_inv in Hm as (o & r & t & Hu & _).
    now elim (H o r t).
  - intros e connect service tok key H. unfold main_try, lift.
    rewrite H. reflexivity.
Qed.

Lemma validate_repo_url_github_witness :
  validate_repo_url "https://github.com/microsoft/autogen/tree/main"
    = Return "microsoft/autogen" /\
  validate_repo_url "github.com/microsoft/autogen"
    = Raise (ValueError invalid_url_message) /\
  main_try (fun _ => mkGithub (fun _ => Fails (mkGithubException 500 "")))
    (fun _ => Return PyNone) "token" "key" "github.com/microsoft/autogen"
    = (Raise (ValueError invalid_url_message), []).
Proof.
  split; [|split].
  - apply (proj1 (validate_repo_url_github _) "microsoft" "autogen" "/tree/main").
    unfold github_url.
    repeat split; try reflexivity; try discriminate. right; reflexivity.
  - apply (proj1 (proj2 (validate_repo_url_github _))).
    intros o r t [[H | H] _]; discriminate H.
  - apply (proj2 (proj2 (validate_repo_url_github _))). reflexivity.
Defined.

(** C1 as worded fails both ways: a URL of another host has the worded
    shape and is refused, and an [http] URL has not and is accepted. *)
Lemma validate_repo_url_spec_pattern_counterexample :
  (spec_url_pattern "https://gitlab.com/a/b" /\
   validate_repo_url "https://gitlab.com/a/b"
     = Raise (ValueError invalid_url_message)) /\
  (~ spec_url_pattern "http://github.com/a/b" /\
   validate_repo_url "http://github.com/a/b" = Return "a/b").
Proof.
  split; split; try reflexivity.
  - exists "gitlab.com", "a", "b", "".
    repeat split; try reflexivity; discriminate.
  - intros (h & o & r & t & H & _). discriminate H.
Qed.

(** ** Dictionaries *)

Lemma dict_get_set_eq {V : Type} (k : string) (v : V) (d : dict V) :
  dict_get k (dict_set k v d) = Some v.
Proof.
  induction d as [|[k' v'] d IH]; simpl.
  - now rewrite String.eqb_refl.
  - destruct (String.eqb k' k) eqn:E; simpl; now rewrite E.
Qed.

Lemma dict_get_set_ne {V : Type} (k k' : string) (v : V) (d : dict V) :
  k <> k' -> dict_get k' (dict_set k v d) = dict_get k' d.
Proof.
  intros Hne. induction d as [|[k0 v0] d IH]; simpl.
  - destruct (String.eqb_spec k k'); [contradiction | reflexivity].
  - destruct (String.eqb_spec k0 k) as [->|]; simpl.
    + destruct (String.eqb_spec k k'); [contradiction | reflexivity].
    + now rewrite IH.
Qed.

Lemma dict_keys_set_new {V : Type} (k : string) (v : V) (d : dict V) :
  ~ In k (dict_keys d) -> dict_keys (dict_set k v d) = (dict_keys d ++ [k])%list.
Proof.
  induction d as [|[k' v'] d IH]; simpl; [reflexivity|].
  intros H. destruct (String.eqb_spec k' k) as [->|Hne]; [tauto|].
  simpl. rewrite IH; tauto.
Qed.

Lemma dict_set_length {V : Type} (k : string) (v : V) (d : dict V) :
  length (dict_set k v d) <= S (length d).
Proof.
  induction d as [|[k' v'] d IH]; simpl; [lia|].
  destruct (String.eqb k' k); simpl; lia.
Qed.

(** ** Slices *)

Lemma slice_to_nonneg {A : Type} (n : Z) (l : list A) :
  (0 <= n)%Z -> slice_to n l = firstn (Z.to_nat n) l.
Proof.
  intros H. unfold slice_to.
  destruct (Z.leb_spec 0 n); [reflexivity | lia].
Qed.

Lemma slice_to_prefix {A : Type} (n : Z) (l : list A) :
  exists rest, l = (slice_to n l ++ rest)%list.
Proof.
  unfold slice_to. destruct (0 <=? n)%Z.
  - exists (skipn (Z.to_nat n) l). now rewrite firstn_skipn.
  - exists (skipn (length l - Z.to_nat (- n)) l). now rewrite firstn_skipn.
Qed.

Lemma slice_to_length {A : Type} (n : Z) (l : list A) :
  (0 <= n)%Z -> (Z.of_nat (length (slice_to n l)) <= n)%Z.
Proof.
  intros H. rewrite slice_to_nonneg by assumption.
  rewrite length_firstn. lia.
Qed.

Lemma slice_to_In {A : Type} (n : Z) (l : list A) (x : A) :
  In x (slice_to n l) -> In x l.
Proof.
  destruct (slice_to_prefix n l) as [rest H]. intros Hx.
  rewrite H. apply in_or_app. now left.
Qed.

(** ** The stable sort *)

Ltac key_cases :=
  repeat match goal with
         | k : sort_key |- _ => destruct k
         end;
  unfold key_le in *; simpl in *;
  repeat match goal with
         | H : (_ <? _)%nat = true |- _ => apply Nat.ltb_lt in H
         | H : (_ <? _)%nat = false |- _ => apply Nat.ltb_ge in H
         | H : (_ =? _)%nat = true |- _ => apply Nat.eqb_eq in H
         | |- (_ <? _)%nat = true => apply Nat.ltb_lt
         | |- (_ <? _)%nat = false => apply Nat.ltb_ge
         | |- (_ =? _)%nat = false => apply Nat.eqb_neq
         end;
  try discriminate; try reflexivity; try lia.

Lemma key_lt_not_eqb (a b k : sort_key) :
  key_lt a b = true -> key_eqb b k = true -> key_eqb a k = false.
Proof. intros H1 H2. key_cases. Qed.

Lemma key_lt_le (a b : sort_key) : key_lt a b = true -> key_le a b.
Proof. intros H. key_cases. Qed.

Lemma key_le_trans (a b c : sort_key) : key_le a b -> key_le b c -> key_le a c.
Proof. intros H1 H2. key_cases. Qed.

Lemma key_le_refl (a : sort_key) : key_le a a.
Proof. key_cases. Qed.

Lemma key_le_antisym (a b : sort_key) : key_le a b -> key_le b a -> a = b.
Proof. intros H1 H2. key_cases. f_equal. lia. Qed.

Lemma key_eqb_refl (a : sort_key) : key_eqb a a = true.
Proof. destruct a; simpl; [apply Nat.eqb_refl | reflexivity]. Qed.

Section SortFacts.
Context {A : Type} (key : A -> sort_key).

Lemma insert_by_perm (x : A) (l : list A) :
  Permutation (insert_by key x l) (x :: l).
Proof.
  induction l as [|y l IH]; simpl; [reflexivity|].
  destruct (key_lt (key y) (key x)); [|reflexivity].
  rewrite IH. apply perm_swap.
Qed.

Lemma sort_by_perm (l : list A) : Permutation (sort_by key l) l.
Proof.
  induction l as [|x l IH]; simpl; [reflexivity|].
  rewrite insert_by_perm. now constructor.
Qed.

Lemma insert_by_sorted (x : A) (l : list A) :
  StronglySorted (key_order key) l ->
  StronglySorted (key_order key) (insert_by key x l).
Proof.
  induction 1 as [|y l Hl IH Hy]; simpl.
  - repeat constructor.
  - destruct (key_lt (key y) (key x)) eqn:E.
    + constructor; [exact IH|].
      eapply Permutation_Forall; [symmetry; apply insert_by_perm|].
      constructor; [now apply key_lt_le | exact Hy].
    + constructor; [now constructor|].
      constructor; [exact E|].
      eapply Forall_impl; [|exact Hy].
      intros z Hz. eapply key_le_trans; [exact E | exact Hz].
Qed.

Lemma sort_by_sorted (l : list A) :
  StronglySorted (key_order key) (sort_by key l).
Proof.
  induction l as [|x l IH]; simpl; [constructor | now apply insert_by_sorted].
Qed.

(** Stability: the elements of any one key keep their order. *)
Lemma insert_by_filter (k : sort_key) (x : A) (l : list A) :
  filter (fun y => key_eqb (key y) k) (insert_by key x l)
  = filter (fun y => key_eqb (key y) k) (x :: l).
Proof.
  induction l as [|y l IH]; [reflexivity|].
  cbn [insert_by]. destruct (key_lt (key y) (key x)) eqn:E; [|reflexivity].
  cbn [filter] in *. rewrite IH.
  destruct (key_eqb (key x) k) eqn:Ex; [|reflexivity].
  now rewrite (key_lt_not_eqb _ _ _ E Ex).
Qed.

Lemma sort_by_stable (k : sort_key) (l : list A) :
  filter (fun y => key_eqb (key y) k) (sort_by key l)
  = filter (fun y => key_eqb (key y) k) l.
Proof.
  induction l as [|x l IH]; [reflexivity|].
  cbn [sort_by fold_right]. rewrite insert_by_filter.
  cbn [filter]. fold (sort_by key l). now rewrite IH.
Qed.
(** A stable sort has one possible result: two sorted lists with the
    same elements of each key, in the same order, are equal.  So any
    implementation of [list.sort] agrees with [sort_by]. *)
Lemma stable_sorted_unique (l1 l2 : list A) :
  StronglySorted (key_order key) l1 ->
  StronglySorted (key_order key) l2 ->
  (forall k, filter (fun y => key_eqb (key y) k) l1
             = filter (fun y => key_eqb (key y) k) l2) ->
  l1 = l2.
Proof.
  intros H1. revert l2. induction H1 as [|x l1 Hl1 IH Hx]; intros l2 H2 Hk.
  - destruct l2 as [|y l2]; [reflexivity|].
    specialize (Hk (key y)). cbn [filter] in Hk.
    rewrite key_eqb_refl in Hk. discriminate.
  - destruct H2 as [|y l2 Hl2 Hy].
    { specialize (Hk (key x)). cbn [filter] in Hk.
      rewrite key_eqb_refl in Hk. discriminate. }
    assert (Hxy : key x = key y).
    { apply key_le_antisym.
      - assert (Hin : In y (x :: l1)).
        { pose proof (Hk (key y)) as E. cbn [filter] in E.
          rewrite (key_eqb_refl (key y)) in E.
          assert (Hiny : In y (filter (fun z => key_eqb (key z) (key y)) (x :: l1))).
          { cbn [filter]. rewrite E. destruct (key_eqb (key x) (key y)); now left. }
          now apply filter_In in Hiny. }
        destruct Hin as [<-|Hin]; [apply key_le_refl|].
        rewrite Forall_forall in Hx. now apply Hx.
      - assert (Hin : In x (y :: l2)).
        { pose proof (Hk (key x)) as E. cbn [filter] in E.
          rewrite (key_eqb_refl (key x)) in E.
          assert (Hinx : In x (filter (fun z => key_eqb (key z) (key x)) (y :: l2))).
          { cbn [filter]. rewrite <- E. now left. }
          now apply filter_In in Hinx. }
        destruct Hin as [<-|Hin]; [apply key_le_refl|].
        rewrite Forall_forall in Hy. now apply Hy. }
    pose proof (Hk (key x)) as E. cbn [filter] in E.
    rewrite <- Hxy, key_eqb_refl in E. inversion E as [[Exy Erest]]. subst y.
    f_equal. apply IH; [exact Hl2|].
    intros k. specialize (Hk k). cbn [filter] in Hk.
    destruct (key_eqb (key x) k); [now inversion Hk | exact Hk].
Qed.

Lemma sort_by_unique (l sorted : list A) :
  StronglySorted (key_order key) sorted ->
  (forall k, filter (fun y => key_eqb (key y) k) sorted
             = filter (fun y => key_eqb (key y) k) l) ->
  sorted = sort_by key l.
Proof.
  intros Hs Hk. apply stable_sorted_unique; [exact Hs | apply sort_by_sorted|].
  intros k. now rewrite Hk, sort_by_stable.
Qed.
End SortFacts.

(** ** File selector: what a run does *)

Lemma read_file_run (max_file_size : Z) (f : ContentFile.t) (d : dict string) :
  read_file max_file_size f d
  = (Return (dict_set (ContentFile.path f) (file_entry max_file_size f) d),
     file_events max_file_size f).
Proof.
  unfold read_file, file_entry, file_events.
  destruct (ContentFile.size f >? max_file_size)%Z; [reflexivity|].
  destruct (ContentFile.decoded_content f) as [[text|reason]|e]; reflexivity.
Qed.

(** The loop never raises: each file leaves its entry and the loop goes
    on to the next. *)
Lemma for_each_read_file_returns (max_file_size : Z) (l : list ContentFile.t)
  (d : dict string) :
  for_each l (read_file max_file_size) d
  = (Return (write_entries max_file_size l d),
     flat_map (file_events max_file_size) l).
Proof.
  revert d. induction l as [|f l IH]; intros d; [reflexivity|].
  cbn [for_each]. unfold bind. rewrite read_file_run, IH. reflexivity.
Qed.

Lemma get_important_file_content_listed (repo : Repository.t)
  (contents : list ContentFile.t) (max_files max_file_size : Z) :
  Repository.get_contents repo "" = Ok contents ->
  get_important_file_content repo max_files max_file_size
  = (Return (write_entries max_file_size (selected_files contents max_files) []),
     forge_get_contents ""
       :: flat_map (file_events max_file_size) (selected_files contents max_files)).
Proof.
  intros H. unfold get_important_file_content, forge, bind, try_except.
  rewrite H, for_each_read_file_returns. reflexivity.
Qed.

Lemma get_important_file_content_unlisted (repo : Repository.t)
  (e : GithubException) (max_files max_file_size : Z) :
  Repository.get_contents repo "" = Fails e ->
  get_important_file_content repo max_files max_file_size
  = (Return [], [forge_get_contents ""; st_warning (listing_warning e)]).
Proof.
  intros H. unfold get_important_file_content, forge, bind, try_except.
  rewrite H. reflexivity.
Qed.

Lemma write_entries_length (ms : Z) (l : list ContentFile.t) (d : dict string) :
  length (write_entries ms l d) <= length d + length l.
Proof.
  revert d. induction l as [|f l IH]; intros d; simpl; [lia|].
  specialize (IH (dict_set (ContentFile.path f) (file_entry ms f) d)).
  pose proof (dict_set_length (ContentFile.path f) (file_entry ms f) d).
  unfold write_entries in *. lia.
Qed.

Lemma write_entries_other (ms : Z) (l : list ContentFile.t) (d : dict string)
  (k : string) :
  ~ In k (map ContentFile.path l) ->
  dict_get k (write_entries ms l d) = dict_get k d.
Proof.
  revert d. induction l as [|f l IH]; intros d Hk; [reflexivity|].
  simpl in Hk. cbn [write_entries fold_left].
  fold (write_entries ms l (dict_set (ContentFile.path f) (file_entry ms f) d)).
  rewrite IH by tauto. apply dict_get_set_ne. tauto.
Qed.

Lemma write_entries_get (ms : Z) (l : list ContentFile.t) (d : dict string)
  (f : ContentFile.t) :
  NoDup (map ContentFile.path l) -> In f l ->
  dict_get (ContentFile.path f) (write_entries ms l d) = Some (file_entry ms f).
Proof.
  revert d. induction l as [|f0 l IH]; intros d Hnd Hin; [contradiction|].
  cbn [map] in Hnd. apply NoDup_cons_iff in Hnd as [Hf0 Hnd].
  cbn [write_entries fold_left].
  fold (write_entries ms l (dict_set (ContentFile.path f0) (file_entry ms f0) d)).
  destruct Hin as [->|Hin].
  - rewrite write_entries_other by assumption. apply dict_get_set_eq.
  - now apply IH.
Qed.

Lemma write_entries_keys (ms : Z) (l : list ContentFile.t) (d : dict string) :
  NoDup (map ContentFile.path l) ->
  (forall k, In k (map ContentFile.path l) -> ~ In k (dict_keys d)) ->
  dict_keys (write_entries ms l d) = (dict_keys d ++ map ContentFile.path l)%list.
Proof.
  revert d. induction l as [|f l IH]; intros d Hnd Hd.
  - simpl. now rewrite app_nil_r.
  - cbn [map] in *. apply NoDup_cons_iff in Hnd as [Hf Hnd].
    cbn [write_entries fold_left].
    fold (write_entries ms l (dict_set (ContentFile.path f) (file_entry ms f) d)).
    assert (Hnew : ~ In (ContentFile.path f) (dict_keys d)) by (apply Hd; now left).
    rewrite IH; [| assumption |].
    + rewrite dict_keys_set_new by assumption. now rewrite <- app_assoc.
    + intros k Hk. rewrite dict_keys_set_new by assumption.
      intros Hin. apply in_app_or in Hin as [Hin|[<-|[]]].
      * apply (Hd k); [now right | assumption].
      * contradiction.
Qed.

(** ** The selected files *)

Lemma files_to_check_perm (contents : list ContentFile.t) :
  Permutation (files_to_check contents) (filter is_regular_file contents).
Proof. apply sort_by_perm. Qed.

Lemma NoDup_map_filter {A B : Type} (g : A -> B) (p : A -> bool) (l : list A) :
  NoDup (map g l) -> NoDup (map g (filter p l)).
Proof.
  induction l as [|x l IH]; simpl; intros H; [constructor|].
  apply NoDup_cons_iff in H as [Hx H].
  destruct (p x); [|now apply IH].
  simpl. constructor; [|now apply IH].
  intros Hin. apply Hx. apply in_map_iff in Hin as (y & Hy & Hin).
  apply in_map_iff. exists y. split; [exact Hy|].
  now apply filter_In in Hin.
Qed.

Lemma selected_files_NoDup (contents : list ContentFile.t) (max_files : Z) :
  NoDup (map ContentFile.path contents) ->
  NoDup (map ContentFile.path (selected_files contents max_files)).
Proof.
  intros H. unfold selected_files.
  destruct (slice_to_prefix max_files (files_to_check contents)) as [rest Hr].
  assert (Hall : NoDup (map ContentFile.path (files_to_check contents))).
  { eapply Permutation_NoDup.
    - apply Permutation_map. symmetry. apply files_to_check_perm.
    - now apply NoDup_map_filter. }
  rewrite Hr, map_app in Hall. now apply NoDup_app_remove_r in Hall.
Qed.

(** ** The sort key *)

Lemma str_in_In (x : string) (l : list string) : str_in x l = true <-> In x l.
Proof.
  unfold str_in. rewrite existsb_exists. split.
  - intros (y & Hy & E). apply String.eqb_eq in E. now subst.
  - intros H. exists x. split; [exact H | apply String.eqb_refl].
Qed.

Lemma list_index_nth (x : string) (l : list string) (i : nat) :
  list_index x l = Some i ->
  nth_error l i = Some x /\ ~ In x (firstn i l).
Proof.
  revert i. induction l as [|y l IH]; intros i; simpl; [discriminate|].
  destruct (String.eqb_spec y x) as [->|Hne].
  - intros H; inversion H; subst. simpl. tauto.
  - destruct (list_index x l) as [j|]; [|discriminate].
    intros H; inversion H; subst. destruct (IH j eq_refl) as [H1 H2].
    simpl. split; [exact H1 | tauto].
Qed.

Lemma list_index_In (x : string) (l : list string) :
  In x l -> exists i, list_index x l = Some i.
Proof.
  induction l as [|y l IH]; simpl; [contradiction|].
  destruct (String.eqb_spec y x) as [->|Hne]; [now exists 0|].
  intros [H|H]; [contradiction|].
  destruct (IH H) as [i ->]. now exists (S i).
Qed.

Lemma priority_key_listed (f : ContentFile.t) :
  listed f = true ->
  exists i, priority_key f = Index i /\
            nth_error priority_files i = Some (ContentFile.name f).
Proof.
  unfold listed, priority_key. intros H. rewrite H.
  apply str_in_In, list_index_In in H as [i Hi]. rewrite Hi.
  exists i. split; [reflexivity | now apply list_index_nth].
Qed.

Lemma priority_key_unlisted (f : ContentFile.t) :
  listed f = false <-> priority_key f = Inf.
Proof.
  unfold listed, priority_key. split.
  - now intros ->.
  - destruct (str_in (ContentFile.name f) priority_files) eqn:E; [|reflexivity].
    apply str_in_In, list_index_In in E as [i ->]. discriminate.
Qed.

(** In a sorted list the files of the priority list come first, the
    others follow. *)
Lemma sorted_listed_first (l : list ContentFile.t) :
  StronglySorted by_priority l ->
  l = (filter listed l ++ filter (fun f => negb (listed f)) l)%list.
Proof.
  induction 1 as [|f l Hl IH Hf]; [reflexivity|].
  cbn [filter]. destruct (listed f) eqn:E; cbn [negb].
  - cbn [app]. now rewrite <- IH.
  - assert (Hall : Forall (fun f' => listed f' = false) l).
    { eapply Forall_impl; [|exact Hf]. intros f' Hle.
      apply priority_key_unlisted. apply priority_key_unlisted in E.
      unfold by_priority, key_order, key_le in Hle. rewrite E in Hle.
      destruct (priority_key f'); [discriminate | reflexivity]. }
    assert (Hnone : filter listed l = []).
    { clear -Hall. induction Hall as [|f' l Hf' _ IH]; [reflexivity|].
      cbn [filter]. now rewrite Hf'. }
    assert (Hsame : filter (fun f => negb (listed f)) l = l).
    { clear -Hall. induction Hall as [|f' l Hf' _ IH]; [reflexivity|].
      cbn [filter]. rewrite Hf'. cbn [negb]. now rewrite IH. }
    now rewrite Hnone, Hsame.
Qed.

Lemma filter_unlisted_has_key (l : list ContentFile.t) :
  filter (fun f => negb (listed f)) l = filter (has_key Inf) l.
Proof.
  apply filter_ext. intros f. unfold has_key.
  destruct (listed f) eqn:E.
  - destruct (priority_key_listed f E) as (i & -> & _). reflexivity.
  - apply priority_key_unlisted in E. now rewrite E.
Qed.

Lemma Permutation_3_inv {A : Type} (a b c : A) (l : list A) :
  Permutation l [a; b; c] ->
  l = [a; b; c] \/ l = [a; c; b] \/ l = [b; a; c] \/
  l = [b; c; a] \/ l = [c; a; b] \/ l = [c; b; a].
Proof.
  intros H. pose proof (Permutation_length H) as Hlen.
  destruct l as [|x [|y [|z [|w l]]]]; try discriminate. clear Hlen.
  apply Permutation_sym in H.
  assert (Ha : In a [x; y; z]) by (eapply Permutation_in; [exact H | now left]).
  destruct Ha as [<-|[<-|[<-|[]]]].
  - apply Permutation_cons_inv, Permutation_length_2_inv in H.
    destruct H as [H|H]; inversion H; subst; tauto.
  - apply (Permutation_cons_app_inv [x] [z]), Permutation_length_2_inv in H.
    destruct H as [H|H]; inversion H; subst; tauto.
  - apply (Permutation_cons_app_inv [x; y] []), Permutation_length_2_inv in H.
    destruct H as [H|H]; inversion H; subst; tauto.
Qed.

(** ** File selection: order *)

(** C3: the loop runs over the regular files of the listing, sorted
    stably and ascending by the index of the name in [priority_files]:
    the sorted list is a permutation of the regular files, it is ordered
    by the key, files of equal key keep their input order (and these
    three facts leave one possible result), the files absent from
    [priority_files] have the key [Inf] and follow all listed files in
    their input order.  For every listing that is a permutation of
    README.md, random.txt, package.json and [max_files = 2] the selected
    files are README.md and package.json, in that order. *)
Theorem files_to_check_stable_priority_sort (contents : list ContentFile.t) :
  priority_files =
    [ "README.md"; "pyproject.toml"; "package.json"; "requirements.txt";
      "main.py"; "app.py"; "index.js"; "docker-compose.yml"; "Dockerfile";
      "pom.xml"; "build.gradle" ] /\
  Permutation (files_to_check contents) (filter is_regular_file contents) /\
  StronglySorted by_priority (files_to_check contents) /\
  (forall k,
      filter (has_key k) (files_to_check contents)
      = filter (has_key k) (filter is_regular_file contents)) /\
  (forall sorted,
      StronglySorted by_priority sorted ->
      (forall k,
          filter (has_key k) sorted
          = filter (has_key k) (filter is_regular_file contents)) ->
      sorted = files_to_check contents) /\
  (forall f,
      (listed f = true ->
       exists i, priority_key f = Index i /\
                 nth_error priority_files i = Some (ContentFile.name f)) /\
      (listed f = false -> priority_key f = Inf)) /\
  files_to_check contents =
    (filter listed (files_to_check contents)
     ++ filter (fun f => negb (listed f)) (filter is_regular_file contents))%list /\
  (forall readme random package repo max_file_size,
      root_file "README.md" readme ->
      root_file "random.txt" random ->
      root_file "package.json" package ->
      Permutation contents [readme; random; package] ->
      Repository.get_contents repo "" = Ok contents ->
      selected_files contents 2 = [readme; package] /\
      exists d,
        fst (get_important_file_content repo 2 max_file_size) = Return d /\
        dict_keys d = ["README.md"; "package.json"]).
Proof.
  assert (Hsorted : StronglySorted by_priority (files_to_check contents))
    by apply sort_by_sorted.
  split; [reflexivity|].
  split; [apply files_to_check_perm|].
  split; [exact Hsorted|].
  split; [intros k; apply (sort_by_stable priority_key)|].
  split; [intros sorted Hs Hk; now apply (sort_by_unique priority_key)|].
  split.
  { intros f. split; [apply priority_key_listed | apply priority_key_unlisted]. }
  split.
  { rewrite (sorted_listed_first _ Hsorted) at 1. f_equal.
    rewrite !filter_unlisted_has_key. apply (sort_by_stable priority_key). }
  intros readme random package repo ms Hreadme Hrandom Hpackage Hperm Hrepo.
  rewrite (get_important_file_content_listed _ _ _ _ Hrepo). cbn [fst].
  destruct readme as [t1 n1 p1 s1 c1], random as [t2 n2 p2 s2 c2],
    package as [t3 n3 p3 s3 c3].
  destruct Hreadme as (E1 & E2 & E3), Hrandom as (E4 & E5 & E6),
    Hpackage as (E7 & E8 & E9).
  cbn in E1, E2, E3, E4, E5, E6, E7, E8, E9. subst.
  apply Permutation_3_inv in Hperm.
  destruct Hperm as [->|[->|[->|[->|[->| ->]]]]];
    (split; [reflexivity | eexists; split; [reflexivity | reflexivity]]).
Qed.

Lemma files_to_check_stable_priority_sort_witness :
  selected_files Sample.three_files 2 = [Sample.readme; Sample.package] /\
  exists d,
    fst (get_important_file_content
           (Sample.repository None None (Ok Sample.three_files)) 2 15000)
    = Return d /\
    dict_keys d = ["README.md"; "package.json"].
Proof.
  apply (proj2 (proj2 (proj2 (proj2 (proj2 (proj2 (proj2
           (files_to_check_stable_priority_sort Sample.three_files)))))))
           Sample.readme Sample.random Sample.package
           (Sample.repository None None (Ok Sample.three_files)) 15000%Z).
  - repeat split.
  - repeat split.
  - repeat split.
  - apply perm_trans with [Sample.random; Sample.readme; Sample.package].
    + apply perm_skip, perm_swap.
    + apply perm_swap.
  - reflexivity.
Defined.

(** ** File selection: entries *)

Lemma NoDup_map_inj {A B : Type} (g : A -> B) (l : list A) (x y : A) :
  NoDup (map g l) -> In x l -> In y l -> g x = g y -> x = y.
Proof.
  induction l as [|z l IH]; simpl; intros Hnd Hx Hy E; [contradiction|].
  apply NoDup_cons_iff in Hnd as [Hz Hnd].
  destruct Hx as [->|Hx], Hy as [->|Hy]; auto.
  - elim Hz. rewrite E. now apply in_map.
  - elim Hz. rewrite <- E. now apply in_map.
Qed.

Lemma decoded_content_requested (ms : Z) (l : list ContentFile.t)
  (f : ContentFile.t) :
  NoDup (map ContentFile.path l) -> In f l ->
  In (forge_decoded_content (ContentFile.path f)) (flat_map (file_events ms) l)
  <-> (ContentFile.size f >? ms)%Z = false.
Proof.
  intros Hnd Hf. rewrite in_flat_map. split.
  - intros (f' & Hf' & Hin). unfold file_events in Hin.
    destruct (ContentFile.size f' >? ms)%Z eqn:E; [contradiction|].
    destruct Hin as [Hin|[]]. inversion Hin as [Hp].
    now rewrite <- (NoDup_map_inj _ _ _ _ Hnd Hf' Hf Hp).
  - intros E. exists f. split; [exact Hf|].
    unfold file_events. rewrite E. now left.
Qed.

(** With a listing, every selected file gets its entry, in the order of
    selection. *)
Lemma get_important_file_content_entries (repo : Repository.t)
  (contents : list ContentFile.t) (max_files max_file_size : Z) :
  Repository.get_contents repo "" = Ok contents ->
  NoDup (map ContentFile.path contents) ->
  exists d,
    get_important_file_content repo max_files max_file_size
    = (Return d,
       forge_get_contents ""
         :: flat_map (file_events max_file_size) (selected_files contents max_files)) /\
    dict_keys d = map ContentFile.path (selected_files contents max_files) /\
    forall f, In f (selected_files contents max_files) ->
              dict_get (ContentFile.path f) d = Some (file_entry max_file_size f).
Proof.
  intros Hrepo Hnd.
  pose proof (selected_files_NoDup contents max_files Hnd) as Hsel.
  eexists. split; [now apply get_important_file_content_listed|]. split.
  - rewrite write_entries_keys; [reflexivity | exact Hsel | intros k _ []].
  - intros f Hf. now apply write_entries_get.
Qed.

(** C4, as the code has it: for [max_files >= 0] the result has at most
    [max_files] entries; for a file larger than [max_file_size] the loop
    body stores the too-large placeholder and makes no request; and for a
    listing with pairwise distinct paths, every selected file larger than
    [max_file_size] has the too-large placeholder as its entry in the
    result, and its content is never requested. *)
Theorem get_important_file_content_bounded (repo : Repository.t)
  (max_files max_file_size : Z) :
  ((0 <= max_files)%Z ->
   exists d events,
     get_important_file_content repo max_files max_file_size = (Return d, events) /\
     (Z.of_nat (length d) <= max_files)%Z) /\
  (forall f d,
     (ContentFile.size f > max_file_size)%Z ->
     read_file max_file_size f d
     = (Return (dict_set (ContentFile.path f) (too_large_message max_file_size) d),
        [])) /\
  (forall contents,
     Repository.get_contents repo "" = Ok contents ->
     NoDup (map ContentFile.path contents) ->
     exists d events,
       get_important_file_content repo max_files max_file_size = (Return d, events) /\
       forall f,
         In f (selected_files contents max_files) ->
         (ContentFile.size f > max_file_size)%Z ->
         dict_get (ContentFile.path f) d = Some (too_large_message max_file_size) /\
         ~ In (forge_decoded_content (ContentFile.path f)) events).
Proof.
  split.
  - intros Hmax.
    destruct (Repository.get_contents repo "") as [contents|e] eqn:Hrepo.
    + do 2 eexists.
      split; [exact (get_important_file_content_listed _ _ _ _ Hrepo)|].
      pose proof (write_entries_length max_file_size
                    (selected_files contents max_files) []) as Hlen.
      pose proof (slice_to_length max_files (files_to_check contents) Hmax).
      unfold selected_files in *. simpl in Hlen. lia.
    + do 2 eexists.
      split; [exact (get_important_file_content_unlisted _ _ _ _ Hrepo)|].
      simpl. lia.
  - split.
    { intros f d Hsize. rewrite read_file_run. unfold file_entry, file_events.
      assert (E : (ContentFile.size f >? max_file_size)%Z = true)
        by (apply Z.gtb_lt; lia).
      now rewrite E. }
    intros contents Hrepo Hnd.
    destruct (get_important_file_content_entries repo contents max_files
                max_file_size Hrepo Hnd) as (d & Hrun & _ & Hget).
    exists d. eexists. split; [exact Hrun|].
    intros f Hf Hsize.
    assert (E : (ContentFile.size f >? max_file_size)%Z = true)
      by (apply Z.gtb_lt; lia).
    split.
    + rewrite (Hget f Hf). unfold file_entry. now rewrite E.
    + intros [Hin|Hin]; [discriminate|].
      apply decoded_content_requested in Hin;
        [congruence | now apply selected_files_NoDup | exact Hf].
Qed.

Lemma sample_mixed_paths : NoDup (map ContentFile.path Sample.mixed_files).
Proof.
  repeat constructor; simpl; intuition discriminate.
Qed.

Lemma get_important_file_content_bounded_witness :
  (exists d events,
     get_important_file_content
       (Sample.repository None None (Ok Sample.mixed_files)) 3 15000
     = (Return d, events) /\
     (Z.of_nat (length d) <= 3)%Z) /\
  (exists d events,
     get_important_file_content
       (Sample.repository None None (Ok Sample.mixed_files)) 7 15000
     = (Return d, events) /\
     dict_get "pom.xml" d = Some (too_large_message 15000) /\
     ~ In (forge_decoded_content "pom.xml") events).
Proof.
  split.
  - apply (proj1 (get_important_file_content_bounded _ 3 15000)). lia.
  - destruct (proj2 (proj2 (get_important_file_content_bounded
                              (Sample.repository None None (Ok Sample.mixed_files))
                              7 15000))
                Sample.mixed_files eq_refl sample_mixed_paths)
      as (d & events & Hrun & H).
    exists d, events. split; [exact Hrun|].
    apply (H Sample.big); [vm_compute; tauto | reflexivity].
Defined.

(** C4 as worded fails for a negative [max_files]: the slice
    [files_to_check[:-1]] drops the last file only. *)
Lemma get_important_file_content_negative_max_files :
  exists d,
    fst (get_important_file_content
           (Sample.repository None None (Ok Sample.three_files)) (-1) 15000)
    = Return d /\
    length d = 2 /\
    ~ (Z.of_nat (length d) <= -1)%Z.
Proof.
  eexists. split; [reflexivity|]. split; [reflexivity|]. simpl. lia.
Qed.

(** ** File selection: failures *)

(** The selector always returns: no exception leaves it. *)
Lemma get_important_file_content_returns (repo : Repository.t)
  (max_files max_file_size : Z) :
  exists d events,
    get_important_file_content repo max_files max_file_size = (Return d, events).
Proof.
  destruct (Repository.get_contents repo "") as [contents|e] eqn:Hc.
  - do 2 eexists. exact (get_important_file_content_listed _ _ _ _ Hc).
  - do 2 eexists. exact (get_important_file_content_unlisted _ _ _ _ Hc).
Qed.

Lemma fetch_repo_data_returns (g : Github) (repo_name : string)
  (repo : Repository.t) (languages : dict Z) (topics : list string) :
  get_repo g repo_name = Ok repo ->
  Repository.get_languages repo = Ok languages ->
  Repository.get_topics repo = Ok topics ->
  exists important_files events,
    get_important_file_content repo 7 15000 = (Return important_files, events) /\
    fetch_repo_data g repo_name
    = (Return
         {| RepoData.name := Repository.name repo;
            RepoData.owner := Repository.owner_login repo;
            RepoData.description :=
              py_or (Repository.description repo) no_description;
            RepoData.url := Repository.html_url repo;
            RepoData.language := py_or (Repository.language repo) not_specified;
            RepoData.tech_stack := dict_keys languages;
            RepoData.stars := Repository.stargazers_count repo;
            RepoData.forks := Repository.forks_count repo;
            RepoData.topics := topics;
            RepoData.important_files := important_files |},
       ([forge_get_repo repo_name; forge_get_languages]
          ++ events ++ [forge_get_topics])%list).
Proof.
  intros Hrepo Hlang Htopics.
  destruct (get_important_file_content_returns repo 7 15000)
    as (d & events & Hfiles).
  exists d, events. split; [exact Hfiles|].
  unfold fetch_repo_data, forge, bind, try_except.
  rewrite Hrepo, Hlang, Hfiles, Htopics. cbn [ret].
  now rewrite app_nil_r.
Qed.

(** C10: a file whose size equals [max_file_size] is not given the
    too-large placeholder: the loop body requests its content and stores
    the decoded text, or the could-not-decode placeholder when the fetch or
    the decoding fails; so does the whole selection for such a file. *)
Theorem boundary_size_is_fetched (max_file_size : Z) (f : ContentFile.t) :
  ContentFile.size f = max_file_size ->
  (forall d,
     read_file max_file_size f d
     = (Return (dict_set (ContentFile.path f) (decoded_or_placeholder f) d),
        [forge_decoded_content (ContentFile.path f)])) /\
  could_not_decode_message <> too_large_message max_file_size /\
  (forall repo contents max_files,
     Repository.get_contents repo "" = Ok contents ->
     NoDup (map ContentFile.path contents) ->
     In f (selected_files contents max_files) ->
     exists d events,
       get_important_file_content repo max_files max_file_size = (Return d, events) /\
       In (forge_decoded_content (ContentFile.path f)) events /\
       dict_get (ContentFile.path f) d = Some (decoded_or_placeholder f)).
Proof.
  intros Hsize.
  assert (E : (ContentFile.size f >? max_file_size)%Z = false)
    by (rewrite Z.gtb_ltb; apply Z.ltb_ge; lia).
  assert (Hentry : file_entry max_file_size f = decoded_or_placeholder f).
  { unfold file_entry, decoded_or_placeholder. rewrite E.
    destruct (ContentFile.decoded_content f) as [[text|reason]|e]; reflexivity. }
  split; [|split].
  - intros d. rewrite read_file_run, Hentry. unfold file_events. now rewrite E.
  - unfold could_not_decode_message, too_large_message. cbn [append]. discriminate.
  - intros repo contents max_files Hrepo Hnd Hf.
    destruct (get_important_file_content_entries repo contents max_files
                max_file_size Hrepo Hnd) as (d & Hrun & _ & Hget).
    exists d. eexists. split; [exact Hrun|]. split.
    + right. apply decoded_content_requested;
        [now apply selected_files_NoDup | exact Hf | exact E].
    + now rewrite (Hget f Hf), Hentry.
Qed.

Lemma boundary_size_is_fetched_witness :
  (forall d,
     read_file 15000 Sample.edge d
     = (Return (dict_set "main.py" "pass" d), [forge_decoded_content "main.py"])) /\
  could_not_decode_message <> too_large_message 15000 /\
  (exists d events,
     get_important_file_content
       (Sample.repository None None (Ok Sample.mixed_files)) 7 15000
     = (Return d, events) /\
     In (forge_decoded_content "main.py") events /\
     dict_get "main.py" d = Some "pass").
Proof.
  destruct (boundary_size_is_fetched 15000 Sample.edge eq_refl) as (H1 & H2 & H3).
  split; [exact H1|]. split; [exact H2|].
  apply (H3 (Sample.repository None None (Ok Sample.mixed_files))
            Sample.mixed_files 7%Z eq_refl sample_mixed_paths).
  vm_compute. tauto.
Defined.

(** ** Repository data fetcher *)

Lemma fetch_repo_data_raises (g : Github) (repo_name : string)
  (e : GithubException) :
  forge_refuses g repo_name e ->
  fst (fetch_repo_data g repo_name) = Raise (fetch_error (GithubExc e)).
Proof.
  unfold fetch_repo_data, forge, bind, try_except.
  intros [H | (repo & Hrepo & [H | (languages & Hlang & H)])].
  - now rewrite H.
  - now rewrite Hrepo, H.
  - destruct (get_important_file_content_returns repo 7 15000)
      as (d & events & Hfiles).
    now rewrite Hrepo, Hlang, Hfiles, H.
Qed.

Lemma fetch_error_status (e : GithubException) :
  fetch_error (GithubExc e) = Exception (status_message e).
Proof.
  unfold fetch_error, status_message.
  destruct (status e =? 404)%Z; [reflexivity|].
  destruct (status e =? 401)%Z; reflexivity.
Qed.

(** C9: when the forge answers, the record built by [fetch_repo_data] has
    the fixed default strings where the repository has no description or
    no primary language (its fields are strings, never null), the
    repository's own description and language where it has them, and
    every other field as the forge gave it: name, owner login, URL, stars,
    forks, topics, the language names of the breakdown in their order, and
    the selected files. *)
Theorem fetch_repo_data_defaults (g : Github) (repo_name : string)
  (repo : Repository.t) (languages : dict Z) (topics : list string) :
  get_repo g repo_name = Ok repo ->
  Repository.get_languages repo = Ok languages ->
  Repository.get_topics repo = Ok topics ->
  exists repo_data events important_files file_events,
    fetch_repo_data g repo_name = (Return repo_data, events) /\
    get_important_file_content repo 7 15000 = (Return important_files, file_events) /\
    (Repository.description repo = None ->
     RepoData.description repo_data = "No description provided.") /\
    (Repository.language repo = None ->
     RepoData.language repo_data = "Not specified") /\
    (forall text, text <> "" -> Repository.description repo = Some text ->
                  RepoData.description repo_data = text) /\
    (forall text, text <> "" -> Repository.language repo = Some text ->
                  RepoData.language repo_data = text) /\
    RepoData.name repo_data = Repository.name repo /\
    RepoData.owner repo_data = Repository.owner_login repo /\
    RepoData.url repo_data = Repository.html_url repo /\
    RepoData.stars repo_data = Repository.stargazers_count repo /\
    RepoData.forks repo_data = Repository.forks_count repo /\
    RepoData.topics repo_data = topics /\
    RepoData.tech_stack repo_data = dict_keys languages /\
    RepoData.important_files repo_data = important_files.
Proof.
  intros Hrepo Hlang Htopics.
  destruct (fetch_repo_data_returns g repo_name repo languages topics
              Hrepo Hlang Htopics) as (d & file_events & Hfiles & Hrun).
  do 2 eexists. exists d, file_events.
  split; [exact Hrun|]. split; [exact Hfiles|]. cbn.
  split; [now intros ->|]. split; [now intros ->|].
  split; [intros [|c text] Hne ->; [congruence | reflexivity]|].
  split; [intros [|c text] Hne ->; [congruence | reflexivity]|].
  repeat split.
Qed.

Lemma fetch_repo_data_defaults_witness :
  exists repo_data events important_files file_events,
    fetch_repo_data
      (Sample.forge_of (Sample.repository None None (Ok Sample.three_files)))
      "octocat/hello-world"
    = (Return repo_data, events) /\
    get_important_file_content
      (Sample.repository None None (Ok Sample.three_files)) 7 15000
    = (Return important_files, file_events) /\
    RepoData.description repo_data = "No description provided." /\
    RepoData.language repo_data = "Not specified" /\
    RepoData.name repo_data = "hello-world" /\
    RepoData.topics repo_data = ["demo"] /\
    RepoData.tech_stack repo_data = ["Ruby"].
Proof.
  destruct (fetch_repo_data_defaults
              (Sample.forge_of (Sample.repository None None (Ok Sample.three_files)))
              "octocat/hello-world"
              (Sample.repository None None (Ok Sample.three_files))
              [("Ruby", 100%Z)] ["demo"] eq_refl eq_refl eq_refl)
    as (repo_data & events & important_files & file_events & Hrun & Hfiles
        & Hdesc & Hlang & _ & _ & Hname & _ & _ & _ & _ & Htopics & Htech & _).
  exists repo_data, events, important_files, file_events.
  split; [exact Hrun|]. split; [exact Hfiles|].
  split; [exact (Hdesc eq_refl)|]. split; [exact (Hlang eq_refl)|].
  split; [exact Hname|]. split; [exact Htopics | exact Htech].
Defined.

(** ** Prompt composer *)

Lemma string_app_assoc (s t u : string) : (s ++ t) ++ u = s ++ t ++ u.
Proof.
  induction s as [|a s IH]; simpl; [reflexivity | now rewrite IH].
Qed.

Lemma string_app_nil_r (s : string) : s ++ "" = s.
Proof.
  induction s as [|a s IH]; simpl; [reflexivity | now rewrite IH].
Qed.

Lemma fold_left_blocks (items : dict string) (context : string) :
  fold_left (fun context item => context ++ file_block (fst item) (snd item))
    items context
  = context ++ concat_blocks items.
Proof.
  revert context. induction items as [|item items IH]; intros context; simpl.
  - now rewrite string_app_nil_r.
  - now rewrite IH, string_app_assoc.
Qed.

(** C7: the prompt is the fixed sentence, the header and one block per
    entry of [important_files], in order; the content part of a block is
    [content[:1500]]: a prefix of the content of at most 1500 characters
    (exactly 1500 when the content is longer), and the whole content when
    it has at most 1500 characters.  The two placeholder texts are short
    enough to be there whole. *)
Theorem file_block_content_bounded (repo_data : RepoData.t) (api_key : string) :
  objective (build_request repo_data api_key)
  = "Please provide a comprehensive analysis of the following repository context:"
      ++ nl ++ context_header repo_data
      ++ concat_blocks (RepoData.important_files repo_data) /\
  (forall path content,
     file_block path content
     = nl ++ "--- Start of " ++ path ++ " ---" ++ nl
         ++ str_take 1500 content
         ++ nl ++ "--- End of " ++ path ++ " ---" ++ nl /\
     String.length (str_take 1500 content) = Nat.min 1500 (String.length content) /\
     String.length (str_take 1500 content) <= 1500 /\
     (exists rest, content = str_take 1500 content ++ rest) /\
     (String.length content <= 1500 -> str_take 1500 content = content)) /\
  str_take 1500 could_not_decode_message = could_not_decode_message /\
  str_take 1500 (too_large_message 15000) = too_large_message 15000 /\
  (forall f,
     (ContentFile.size f > 15000)%Z \/
     (forall text, ContentFile.decoded_content f <> Ok (Utf8 text)) ->
     str_take 1500 (file_entry 15000 f) = file_entry 15000 f).
Proof.
  split; [|split; [|split; [|split]]].
  - cbn [objective build_request]. unfold build_prompt, build_context.
    rewrite fold_left_blocks. reflexivity.
  - intros path content. split; [|split; [|split; [|split]]].
    + reflexivity.
    + apply str_take_length.
    + rewrite str_take_length. apply Nat.le_min_l.
    + apply str_take_prefix.
    + apply str_take_all.
  - reflexivity.
  - reflexivity.
  - intros f Hf. unfold file_entry.
    destruct (ContentFile.size f >? 15000)%Z eqn:E; [reflexivity|].
    destruct Hf as [Hf|Hf]; [rewrite Z.gtb_ltb in E; apply Z.ltb_ge in E; lia|].
    destruct (ContentFile.decoded_content f) as [[text|reason]|e];
      [now elim (Hf text) | reflexivity | reflexivity].
Qed.

Lemma file_block_content_bounded_witness :
  str_take 1500 "hello" = "hello" /\
  str_take 1500 (file_entry 15000 Sample.big) = file_entry 15000 Sample.big /\
  str_take 1500 (file_entry 15000 Sample.binary) = file_entry 15000 Sample.binary.
Proof.
  destruct (file_block_content_bounded Sample.data "key")
    as (_ & Hblock & _ & _ & Hentry).
  split; [|split].
  - apply (Hblock "README.md" "hello"). simpl. lia.
  - apply Hentry. left. reflexivity.
  - apply Hentry. right. discriminate.
Defined.

(** ** AI analysis runner *)

Ltac split_response :=
  repeat match goal with
         | |- context [match ?v with PyNone => _ | _ => _ end] =>
             is_var v; destruct v
         | |- context [dict_get ?k ?d] => destruct (dict_get k d)
         end.

(** What a call does, case by case on what the service answers. *)
Lemma run_ai_analysis_cases (service : ai_service) (repo_data : RepoData.t)
  (api_key : string) :
  snd (run_ai_analysis service repo_data api_key)
  = [ai_run_tasks (build_request repo_data api_key)] /\
  match service (build_request repo_data api_key) with
  | Raise e =>
      fst (run_ai_analysis service repo_data api_key)
      = Raise (Exception (ai_error_prefix ++ str_exn e))
  | Return response =>
      match results_object response with
      | Some results_object =>
          match attribute results_object "summary",
                attribute results_object "key_points" with
          | Some summary, Some key_points =>
              fst (run_ai_analysis service repo_data api_key)
              = Return {| overview := summary; features := key_points |}
          | _, _ =>
              exists details,
                fst (run_ai_analysis service repo_data api_key)
                = Raise (Exception (ai_error_prefix ++ details))
          end
      | None =>
          exists details,
            fst (run_ai_analysis service repo_data api_key)
            = Raise (Exception (ai_error_prefix ++ details))
      end
  end.
Proof.
  unfold run_ai_analysis, run_tasks, bind, try_except, is_Exception.
  destruct (service (build_request repo_data api_key)) as [response|e];
    [|split; reflexivity].
  unfold results_object, subscript, attribute, getitem, getattr, raise, ret.
  split_response; cbn; split; try reflexivity; eauto.
Qed.

(** C5: a call makes exactly one request, whatever happens.  When the
    round trip raises (transport, authentication, anything else), when the
    response has no [results]/[summarize_text] entry, or when the object
    found there lacks [key_points] or [summary] (a free-text [str] lacks
    both), the call raises the one [Exception] whose message is the fixed
    user-facing sentence followed by the details, and returns no result;
    and nothing else is ever raised by it. *)
Theorem run_ai_analysis_failure (service : ai_service) (repo_data : RepoData.t)
  (api_key : string) :
  snd (run_ai_analysis service repo_data api_key)
  = [ai_run_tasks (build_request repo_data api_key)] /\
  (forall e,
     service (build_request repo_data api_key) = Raise e ->
     fst (run_ai_analysis service repo_data api_key)
     = Raise (Exception (ai_error_prefix ++ str_exn e))) /\
  (forall response,
     service (build_request repo_data api_key) = Return response ->
     (results_object response = None \/
      exists results_object',
        results_object response = Some results_object' /\
        (attribute results_object' "key_points" = None \/
         attribute results_object' "summary" = None)) ->
     exists details,
       fst (run_ai_analysis service repo_data api_key)
       = Raise (Exception (ai_error_prefix ++ details))) /\
  (forall x,
     fst (run_ai_analysis service repo_data api_key) = Raise x ->
     exists details, x = Exception (ai_error_prefix ++ details)).
Proof.
  destruct (run_ai_analysis_cases service repo_data api_key) as [Hev Hcases].
  split; [exact Hev|]. split; [|split].
  - intros e He. now rewrite He in Hcases.
  - intros response Hresp Hshape. rewrite Hresp in Hcases.
    destruct Hshape as [Hnone | (obj & Hobj & Hattr)].
    + now rewrite Hnone in Hcases.
    + rewrite Hobj in Hcases.
      destruct (attribute obj "summary") as [summary|];
        destruct (attribute obj "key_points") as [key_points|];
        try exact Hcases.
      destruct Hattr; discriminate.
  - intros x Hx.
    destruct (service (build_request repo_data api_key)) as [response|e].
    + destruct (results_object response) as [obj|].
      * destruct (attribute obj "summary") as [summary|],
          (attribute obj "key_points") as [key_points|];
          [rewrite Hcases in Hx; discriminate | | |];
          destruct Hcases as [details Hd]; rewrite Hd in Hx;
          inversion Hx; now exists details.
      * destruct Hcases as [details Hd]. rewrite Hd in Hx.
        inversion Hx. now exists details.
    + rewrite Hcases in Hx. inversion Hx. now eexists.
Qed.

Lemma run_ai_analysis_failure_witness :
  (exists details,
     fst (run_ai_analysis (fun _ => Return Sample.no_key_points) Sample.data "key")
     = Raise (Exception (ai_error_prefix ++ details))) /\
  fst (run_ai_analysis (fun _ => Raise (ServiceError "401 Unauthorized"))
         Sample.data "key")
  = Raise (Exception (ai_error_prefix ++ "401 Unauthorized")) /\
  (exists details,
     fst (run_ai_analysis (fun _ => Return (PyDict [("results",
            PyDict [("summarize_text", PyStr "free text")])])) Sample.data "key")
     = Raise (Exception (ai_error_prefix ++ details))).
Proof.
  split; [|split].
  - apply (proj1 (proj2 (proj2 (run_ai_analysis_failure
             (fun _ => Return Sample.no_key_points) Sample.data "key")))
             Sample.no_key_points eq_refl).
    right. eexists. split; [reflexivity | left; reflexivity].
  - apply (proj1 (proj2 (run_ai_analysis_failure
             (fun _ => Raise (ServiceError "401 Unauthorized")) Sample.data "key"))
             (ServiceError "401 Unauthorized") eq_refl).
  - apply (proj1 (proj2 (proj2 (run_ai_analysis_failure _ Sample.data "key")))
             (PyDict [("results", PyDict [("summarize_text", PyStr "free text")])])
             eq_refl).
    right. eexists. split; [reflexivity | left; reflexivity].
Defined.

(** C2, as the code has it: a call succeeds exactly when the service
    answers with an object at [results]/[summarize_text] that has both
    attributes, and the result then holds the [summary] and the
    [key_points] of that object as they are; [key_points] is not
    inspected, so an empty list is returned as it is. *)
Theorem run_ai_analysis_success (service : ai_service) (repo_data : RepoData.t)
  (api_key : string) (a : analysis) :
  fst (run_ai_analysis service repo_data api_key) = Return a <->
  exists response results_object',
    service (build_request repo_data api_key) = Return response /\
    results_object response = Some results_object' /\
    attribute results_object' "summary" = Some (overview a) /\
    attribute results_object' "key_points" = Some (features a).
Proof.
  destruct (run_ai_analysis_cases service repo_data api_key) as [_ Hcases].
  split.
  - intros Ha.
    destruct (service (build_request repo_data api_key)) as [response|e] eqn:Hresp;
      [|rewrite Hcases in Ha; discriminate].
    destruct (results_object response) as [obj|] eqn:Hobj;
      [|destruct Hcases as [d Hd]; rewrite Hd in Ha; discriminate].
    destruct (attribute obj "summary") as [summary|] eqn:Hs,
      (attribute obj "key_points") as [key_points|] eqn:Hk;
      [| destruct Hcases as [d Hd]; rewrite Hd in Ha; discriminate ..].
    rewrite Hcases in Ha. inversion Ha; subst a.
    exists response, obj. cbn. repeat split; assumption.
  - intros (response & obj & Hresp & Hobj & Hs & Hk).
    rewrite Hresp, Hobj, Hs, Hk in Hcases. rewrite Hcases. now destruct a.
Qed.

Lemma run_ai_analysis_success_witness :
  fst (run_ai_analysis (fun _ => Return (Sample.summary_result (PyList [])))
         Sample.data "key")
  = Return {| overview := PyStr "A demo repository."; features := PyList [] |}.
Proof.
  apply (proj2 (run_ai_analysis_success _ Sample.data "key" _)).
  do 2 eexists. repeat split.
Defined.

(** C2 as worded fails: an empty [key_points] list gives a successful
    call whose [features] are empty. *)
Lemma run_ai_analysis_empty_key_points :
  exists a,
    fst (run_ai_analysis (fun _ => Return (Sample.summary_result (PyList [])))
           Sample.data "key")
    = Return a /\
    features a = PyList [] /\
    ~ key_points_non_empty a.
Proof.
  eexists. split; [reflexivity|]. split; [reflexivity|].
  intros (point & points & H). discriminate H.
Qed.

(** * Further properties *)

(** ** Selection by priority *)

Lemma StronglySorted_app_order {A : Type} (R : A -> A -> Prop) (l1 l2 : list A) :
  StronglySorted R (l1 ++ l2) ->
  forall x y, In x l1 -> In y l2 -> R x y.
Proof.
  induction l1 as [|a l1 IH]; simpl; intros Hs x y Hx Hy; [contradiction|].
  inversion Hs as [|? ? Hs' Ha]; subst.
  destruct Hx as [<-|Hx].
  - rewrite Forall_forall in Ha. apply Ha. apply in_or_app. now right.
  - now apply IH.
Qed.

Lemma files_to_check_In (contents : list ContentFile.t) (f : ContentFile.t) :
  In f (files_to_check contents) <->
  In f contents /\ ContentFile.type f = "file".
Proof.
  split.
  - intros H. apply (Permutation_in _ (files_to_check_perm contents)) in H.
    apply filter_In in H as [H1 H2]. split; [exact H1 | now apply String.eqb_eq].
  - intros [H1 H2].
    apply (Permutation_in _ (Permutation_sym (files_to_check_perm contents))).
    apply filter_In. split; [exact H1|].
    unfold is_regular_file. rewrite H2. reflexivity.
Qed.

Lemma selected_files_regular (contents : list ContentFile.t) (max_files : Z)
  (f : ContentFile.t) :
  In f (selected_files contents max_files) ->
  In f contents /\ ContentFile.type f = "file".
Proof.
  intros H. apply files_to_check_In. now apply slice_to_In in H.
Qed.

(** X1: the selection is closed under priority: when a file is selected,
    every regular file of the listing with a strictly smaller sort key is
    selected too.  So a file that is not in the priority list is selected
    only when every regular file of the list is. *)
Theorem selected_files_priority_closed (contents : list ContentFile.t)
  (max_files : Z) (f f' : ContentFile.t) :
  In f (selected_files contents max_files) ->
  In f' contents -> ContentFile.type f' = "file" ->
  key_lt (priority_key f') (priority_key f) = true ->
  In f' (selected_files contents max_files).
Proof.
  intros Hf Hf' Htype Hlt.
  assert (Hin : In f' (files_to_check contents))
    by (apply files_to_check_In; now split).
  unfold selected_files in *.
  destruct (slice_to_prefix max_files (files_to_check contents)) as [rest Hrest].
  rewrite Hrest in Hin. apply in_app_or in Hin as [Hin|Hin]; [exact Hin|].
  pose proof (sort_by_sorted priority_key
                (filter (fun f => String.eqb (ContentFile.type f) "file") contents))
    as Hsorted.
  fold (files_to_check contents) in Hsorted. rewrite Hrest in Hsorted.
  pose proof (StronglySorted_app_order _ _ _ Hsorted f f' Hf Hin) as Hle.
  unfold key_order, key_le in Hle. congruence.
Qed.

Lemma selected_files_priority_closed_witness :
  In Sample.readme (selected_files Scenario.listing 3).
Proof.
  apply (selected_files_priority_closed Scenario.listing 3
           Scenario.dockerfile Sample.readme).
  - vm_compute. tauto.
  - vm_compute. tauto.
  - reflexivity.
  - reflexivity.
Defined.

Lemma priority_key_index (f : ContentFile.t) (i : nat) :
  priority_key f = Index i ->
  nth_error priority_files i = Some (ContentFile.name f).
Proof.
  unfold priority_key.
  destruct (str_in (ContentFile.name f) priority_files); [|discriminate].
  destruct (list_index (ContentFile.name f) priority_files) as [j|] eqn:E;
    [|discriminate].
  intros H. inversion H; subst j. now apply list_index_nth.
Qed.

Lemma NoDup_map_via {A B C : Type} (g : A -> B) (h : A -> C) (l : list A) :
  NoDup (map h l) ->
  (forall x y, In x l -> In y l -> g x = g y -> h x = h y) ->
  NoDup (map g l).
Proof.
  induction l as [|a l IH]; simpl; intros Hnd Hgh; [constructor|].
  apply NoDup_cons_iff in Hnd as [Ha Hnd]. constructor.
  - intros Hin. apply in_map_iff in Hin as (y & Hy & Hin).
    apply Ha. apply in_map_iff. exists y. split; [|exact Hin].
    apply Hgh; auto.
  - apply IH; [exact Hnd|]. intros x y Hx Hy. apply Hgh; auto.
Qed.

Lemma firstn_In_middle {A : Type} (n : nat) (l1 l2 : list A) (x : A) :
  length l1 < n -> In x (firstn n (l1 ++ x :: l2)).
Proof.
  intros H. rewrite firstn_app. apply in_or_app. right.
  destruct (n - length l1) as [|k] eqn:E; [lia|]. now left.
Qed.

(** X2: in a listing whose names are pairwise distinct, a regular file
    whose name has index [i] in the priority list is selected whenever
    [i < max_files]: at most [i] files can sort before it.  With the
    default [max_files = 7] the first seven names of the list are always
    selected when they are there. *)
Theorem listed_file_selected (contents : list ContentFile.t) (max_files : Z)
  (f : ContentFile.t) (i : nat) :
  NoDup (map ContentFile.name contents) ->
  In f contents -> ContentFile.type f = "file" ->
  priority_key f = Index i ->
  (Z.of_nat i < max_files)%Z ->
  In f (selected_files contents max_files).
Proof.
  intros Hnd Hf Htype Hkey Hlt.
  assert (Hin : In f (files_to_check contents))
    by (apply files_to_check_In; now split).
  assert (Hnames : NoDup (map ContentFile.name (files_to_check contents))).
  { eapply Permutation_NoDup.
    - apply Permutation_map. symmetry. apply files_to_check_perm.
    - now apply NoDup_map_filter. }
  pose proof (sort_by_sorted priority_key
                (filter (fun f => String.eqb (ContentFile.type f) "file") contents))
    as Hsorted.
  fold (files_to_check contents) in Hsorted.
  unfold selected_files.
  destruct (in_split _ _ Hin) as (l1 & l2 & Hl).
  rewrite Hl in Hnames, Hsorted |- *.
  rewrite map_app in Hnames. cbn [map] in Hnames.
  assert (Hbefore : forall x, In x l1 ->
             exists j, priority_key x = Index j /\ j < i).
  { intros x Hx.
    pose proof (StronglySorted_app_order _ _ _ Hsorted x f Hx (or_introl eq_refl))
      as Hle.
    unfold key_order, key_le in Hle. rewrite Hkey in Hle.
    destruct (priority_key x) as [j|] eqn:Ex; [|discriminate].
    exists j. split; [reflexivity|].
    cbn in Hle. apply Nat.ltb_ge in Hle.
    destruct (Nat.eq_dec j i) as [->|]; [|lia].
    exfalso. apply (NoDup_remove_2 _ _ _ Hnames).
    apply in_or_app. left. apply in_map_iff. exists x. split; [|exact Hx].
    apply priority_key_index in Ex, Hkey. congruence. }
  assert (Hlen : length l1 <= i).
  { enough (H : length (map key_index l1) <= length (seq 0 i))
      by (now rewrite length_map, length_seq in H).
    apply NoDup_incl_length.
    - apply (NoDup_map_via key_index ContentFile.name).
      + now apply NoDup_remove_1, NoDup_app_remove_r in Hnames.
      + intros x y Hx Hy E.
        destruct (Hbefore x Hx) as (jx & Ex & _), (Hbefore y Hy) as (jy & Ey & _).
        unfold key_index in E. rewrite Ex, Ey in E. subst jy.
        apply priority_key_index in Ex, Ey. congruence.
    - intros k Hk. apply in_map_iff in Hk as (x & <- & Hx).
      destruct (Hbefore x Hx) as (j & Ex & Hj).
      unfold key_index. rewrite Ex. apply in_seq. lia. }
  rewrite slice_to_nonneg by lia.
  apply firstn_In_middle. lia.
Qed.

Lemma scenario_names : NoDup (map ContentFile.name Scenario.listing).
Proof. repeat constructor; simpl; intuition discriminate. Qed.

Lemma listed_file_selected_witness :
  In Sample.readme (selected_files Scenario.listing 1).
Proof.
  apply (listed_file_selected Scenario.listing 1 Sample.readme 0 scenario_names).
  - vm_compute. tauto.
  - reflexivity.
  - reflexivity.
  - lia.
Defined.

(** ** What the selector asks for *)

Lemma dict_keys_set_in {V : Type} (k : string) (v : V) (d : dict V) :
  In k (dict_keys d) -> dict_keys (dict_set k v d) = dict_keys d.
Proof.
  induction d as [|[k' v'] d IH]; simpl; [contradiction|].
  destruct (String.eqb_spec k' k) as [->|Hne]; [reflexivity|].
  intros [H|H]; [contradiction|]. simpl. now rewrite IH.
Qed.

Lemma write_entries_keys_incl (ms : Z) (l : list ContentFile.t) (d : dict string)
  (k : string) :
  In k (dict_keys (write_entries ms l d)) ->
  In k (dict_keys d) \/ In k (map ContentFile.path l).
Proof.
  revert d. induction l as [|f l IH]; intros d Hk; [now left|].
  cbn [write_entries fold_left] in Hk.
  fold (write_entries ms l (dict_set (ContentFile.path f) (file_entry ms f) d)) in Hk.
  apply IH in Hk as [Hk|Hk]; [|right; now right].
  destruct (in_dec string_dec (ContentFile.path f) (dict_keys d)) as [Hin|Hnin].
  - rewrite dict_keys_set_in in Hk by assumption. now left.
  - rewrite dict_keys_set_new in Hk by assumption.
    apply in_app_or in Hk as [Hk|[<-|[]]]; [now left | right; now left].
Qed.

Lemma file_events_length (ms : Z) (l : list ContentFile.t) :
  length (flat_map (file_events ms) l) <= length l.
Proof.
  induction l as [|f l IH]; simpl; [lia|].
  rewrite length_app. unfold file_events at 1.
  destruct (ContentFile.size f >? ms)%Z; simpl; lia.
Qed.

(** ** What the fetcher asks for *)

(** The run of [fetch_repo_data], case by case on what the forge answers. *)
Lemma fetch_repo_data_cases (g : Github) (repo_name : string) :
  match get_repo g repo_name with
  | Fails e =>
      fetch_repo_data g repo_name
      = (Raise (Exception (status_message e)), [forge_get_repo repo_name])
  | Ok repo =>
      match Repository.get_languages repo with
      | Fails e =>
          fetch_repo_data g repo_name
          = (Raise (Exception (status_message e)),
             [forge_get_repo repo_name; forge_get_languages])
      | Ok languages =>
          exists important_files file_log,
            get_important_file_content repo 7 15000
            = (Return important_files, file_log) /\
            match Repository.get_topics repo with
            | Fails e =>
                fetch_repo_data g repo_name
                = (Raise (Exception (status_message e)),
                   ([forge_get_repo repo_name; forge_get_languages]
                      ++ file_log ++ [forge_get_topics])%list)
            | Ok topics =>
                fetch_repo_data g repo_name
                = (Return
                     {| RepoData.name := Repository.name repo;
                        RepoData.owner := Repository.owner_login repo;
                        RepoData.description :=
                          py_or (Repository.description repo) no_description;
                        RepoData.url := Repository.html_url repo;
                        RepoData.language :=
                          py_or (Repository.language repo) not_specified;
                        RepoData.tech_stack := dict_keys languages;
                        RepoData.stars := Repository.stargazers_count repo;
                        RepoData.forks := Repository.forks_count repo;
                        RepoData.topics := topics;
                        RepoData.important_files := important_files |},
                   ([forge_get_repo repo_name; forge_get_languages]
                      ++ file_log ++ [forge_get_topics])%list)
            end
      end
  end.
Proof.
  unfold fetch_repo_data, forge, bind, try_except.
  destruct (get_repo g repo_name) as [repo|e].
  - destruct (Repository.get_languages repo) as [languages|e].
    + destruct (get_important_file_content_returns repo 7 15000)
        as (d & file_log & Hfiles).
      exists d, file_log. split; [exact Hfiles|]. rewrite Hfiles.
      destruct (Repository.get_topics repo) as [topics|e].
      * cbn. reflexivity.
      * rewrite <- fetch_error_status. cbn -[fetch_error].
        now rewrite ?app_nil_r.
    + rewrite <- fetch_error_status. reflexivity.
  - rewrite <- fetch_error_status. reflexivity.
Qed.

Lemma selector_log_bounded (repo : Repository.t) (d : dict string)
  (file_log : list event) :
  get_important_file_content repo 7 15000 = (Return d, file_log) ->
  length file_log <= 8 /\
  length (filter is_content_request file_log) <= 7 /\
  length d <= 7.
Proof.
  intros Hrun.
  destruct (Repository.get_contents repo "") as [contents|e] eqn:Hc.
  - rewrite (get_important_file_content_listed _ _ 7 15000 Hc) in Hrun.
    inversion Hrun; subst d file_log. clear Hrun.
    pose proof (file_events_length 15000 (selected_files contents 7)) as H1.
    pose proof (slice_to_length 7 (files_to_check contents) ltac:(lia)) as H2.
    pose proof (write_entries_length 15000 (selected_files contents 7) []) as H3.
    pose proof (filter_length_le is_content_request
                  (flat_map (file_events 15000) (selected_files contents 7))) as H4.
    unfold selected_files in *. cbn [length filter is_content_request] in *. lia.
  - rewrite (get_important_file_content_unlisted _ _ 7 15000 Hc) in Hrun.
    inversion Hrun; subst d file_log. cbn. lia.
Qed.

(** X4: [fetch_repo_data] asks the forge for the repository first, and
    stops at the first refusal of the lookup or of the language
    breakdown: then nothing else is requested.  In every run it leaves at
    most 11 events, at most 7 of them content requests, and a record it
    returns holds at most 7 files. *)
Theorem fetch_repo_data_request_budget (g : Github) (repo_name : string) :
  length (snd (fetch_repo_data g repo_name)) <= 11 /\
  length (filter is_content_request (snd (fetch_repo_data g repo_name))) <= 7 /\
  hd_error (snd (fetch_repo_data g repo_name)) = Some (forge_get_repo repo_name) /\
  (forall e,
     get_repo g repo_name = Fails e ->
     snd (fetch_repo_data g repo_name) = [forge_get_repo repo_name]) /\
  (forall repo e,
     get_repo g repo_name = Ok repo ->
     Repository.get_languages repo = Fails e ->
     snd (fetch_repo_data g repo_name)
     = [forge_get_repo repo_name; forge_get_languages]) /\
  (forall repo_data events,
     fetch_repo_data g repo_name = (Return repo_data, events) ->
     length (RepoData.important_files repo_data) <= 7).
Proof.
  pose proof (fetch_repo_data_cases g repo_name) as H.
  destruct (get_repo g repo_name) as [repo|e] eqn:Hrepo.
  - destruct (Repository.get_languages repo) as [languages|e] eqn:Hlang.
    + destruct H as (d & file_log & Hfiles & H).
      destruct (selector_log_bounded repo d file_log Hfiles) as (H8 & H7 & Hd).
      assert (Hlog : snd (fetch_repo_data g repo_name)
                     = ([forge_get_repo repo_name; forge_get_languages]
                          ++ file_log ++ [forge_get_topics])%list).
      { destruct (Repository.get_topics repo); now rewrite H. }
      rewrite Hlog. repeat split.
      * cbn [app length]. rewrite length_app. cbn [length]. lia.
      * cbn [app filter is_content_request]. rewrite filter_app, length_app.
        cbn. lia.
      * discriminate.
      * intros repo' e Hr Hl. inversion Hr; subst repo'. congruence.
      * intros repo_data events Hret.
        destruct (Repository.get_topics repo); rewrite H in Hret; [|discriminate].
        inversion Hret; subst. exact Hd.
    + rewrite H. cbn. repeat split; try lia; try discriminate.
  - rewrite H. cbn. repeat split; try lia; try discriminate.
Qed.

Lemma fetch_repo_data_request_budget_witness :
  snd (fetch_repo_data
         (mkGithub (fun _ => Fails (mkGithubException 404 "404 Not Found")))
         "octocat/none")
  = [forge_get_repo "octocat/none"] /\
  (forall repo_data events,
     fetch_repo_data (Sample.forge_of Scenario.repo) "octocat/hello-world"
     = (Return repo_data, events) ->
     length (RepoData.important_files repo_data) <= 7).
Proof.
  split.
  - apply (proj1 (proj2 (proj2 (proj2 (fetch_repo_data_request_budget _ _))))
             (mkGithubException 404 "404 Not Found")).
    reflexivity.
  - apply (proj2 (proj2 (proj2 (proj2 (proj2
             (fetch_repo_data_request_budget (Sample.forge_of Scenario.repo)
                "octocat/hello-world")))))).
Defined.

Lemma py_or_not_empty (x : option string) (d : string) :
  d <> "" -> py_or x d <> "".
Proof.
  intros Hd. destruct x as [[|c s]|]; cbn; [exact Hd | discriminate | exact Hd].
Qed.

(** X5: a record returned by [fetch_repo_data] never has an empty
    description or language: the default also replaces a description or a
    language that the forge gives as the empty string. *)
Theorem fetch_repo_data_fields_not_empty (g : Github) (repo_name : string)
  (repo_data : RepoData.t) (events : list event) :
  fetch_repo_data g repo_name = (Return repo_data, events) ->
  RepoData.description repo_data <> "" /\
  RepoData.language repo_data <> "" /\
  exists repo,
    get_repo g repo_name = Ok repo /\
    (Repository.description repo = Some "" ->
     RepoData.description repo_data = "No description provided.") /\
    (Repository.language repo = Some "" ->
     RepoData.language repo_data = "Not specified").
Proof.
  intros Hret. pose proof (fetch_repo_data_cases g repo_name) as H.
  destruct (get_repo g repo_name) as [repo|e];
    [|rewrite H in Hret; discriminate].
  destruct (Repository.get_languages repo) as [languages|e];
    [|rewrite H in Hret; discriminate].
  destruct H as (d & file_log & _ & H).
  destruct (Repository.get_topics repo) as [topics|e];
    rewrite H in Hret; [|discriminate].
  inversion Hret; subst repo_data events. cbn.
  split; [apply py_or_not_empty; discriminate|].
  split; [apply py_or_not_empty; discriminate|].
  exists repo. split; [reflexivity|]. split; now intros ->.
Qed.

Lemma fetch_repo_data_fields_not_empty_witness :
  exists repo_data events,
    fetch_repo_data (Sample.forge_of Scenario.bare_repo) "octocat/hello-world"
    = (Return repo_data, events) /\
    RepoData.description repo_data = "No description provided." /\
    RepoData.language repo_data <> "".
Proof.
  do 2 eexists. split; [reflexivity|].
  match goal with
  | |- RepoData.description ?rd = _ /\ _ =>
      destruct (fetch_repo_data_fields_not_empty
                  (Sample.forge_of Scenario.bare_repo) "octocat/hello-world"
                  rd _ eq_refl)
        as (_ & Hlang & repo & Hrepo & Hdesc & _)
  end.
  split; [|exact Hlang].
  apply Hdesc. inversion Hrepo. reflexivity.
Defined.

(** ** The size of the prompt *)

Lemma file_block_length (path content : string) :
  String.length (file_block path content) = block_length (path, content).
Proof.
  unfold file_block, block_length, nl. cbn [fst snd].
  rewrite !string_length_app, str_take_length. cbn [String.length]. lia.
Qed.

Lemma concat_blocks_length (items : dict string) :
  String.length (concat_blocks items) = list_sum (map block_length items).
Proof.
  induction items as [|[path content] items IH]; [reflexivity|].
  cbn [concat_blocks fold_right map list_sum fst snd].
  fold (concat_blocks items).
  now rewrite string_length_app, file_block_length, IH.
Qed.

(** X6: the length of the prompt sent to the AI service is 186 fixed
    characters, plus the name, the description, the language and the
    joined topics, plus for each file twice its path, 36 characters of
    delimiters and at most 1500 characters of content: truncation bounds
    what a file adds, whatever its size. *)
Theorem prompt_length (repo_data : RepoData.t) (api_key : string) :
  String.length (objective (build_request repo_data api_key))
  = 186 + String.length (RepoData.name repo_data)
        + String.length (RepoData.description repo_data)
        + String.length (RepoData.language repo_data)
        + String.length (join ", " (RepoData.topics repo_data))
        + list_sum (map block_length (RepoData.important_files repo_data)) /\
  (forall path content,
     String.length (file_block path content) = block_length (path, content) /\
     block_length (path, content) <= 1536 + 2 * String.length path).
Proof.
  split.
  - cbn [objective build_request]. unfold build_prompt, build_context.
    rewrite fold_left_blocks. unfold context_header, nl.
    rewrite !string_length_app, concat_blocks_length.
    cbn [String.length]. lia.
  - intros path content. split; [apply file_block_length|].
    unfold block_length. cbn [fst snd]. lia.
Qed.

(** ** The details of an AI error *)

Lemma results_object_inv (response obj : pyval) :
  results_object response = Some obj ->
  exists items results,
    response = PyDict items /\
    dict_get "results" items = Some (PyDict results) /\
    dict_get "summarize_text" results = Some obj.
Proof.
  unfold results_object, subscript.
  destruct response as [| | |items|]; try discriminate.
  destruct (dict_get "results" items) as [[| | |results|]|] eqn:E; try discriminate.
  intros H. now exists items, results.
Qed.

Lemma run_ai_analysis_on_object (service : ai_service) (repo_data : RepoData.t)
  (api_key : string) (response obj : pyval) :
  service (build_request repo_data api_key) = Return response ->
  results_object response = Some obj ->
  fst (run_ai_analysis service repo_data api_key)
  = fst (try_except
           (summary <- getattr obj "summary" ;;
            key_points <- getattr obj "key_points" ;;
            ret {| overview := summary; features := key_points |})
           is_Exception
           (fun e => raise (Exception (ai_error_prefix ++ str_exn e)))).
Proof.
  intros Hresp Hobj.
  apply results_object_inv in Hobj as (items & results & -> & Hr & Ho).
  unfold run_ai_analysis, run_tasks, bind, try_except, is_Exception.
  rewrite Hresp. cbn [getitem]. rewrite Hr. cbn [ret getitem]. rewrite Ho.
  cbn [ret].
  destruct (getattr obj "summary") as [[summary|e] t]; [|reflexivity].
  destruct (getattr obj "key_points") as [[key_points|e] t']; reflexivity.
Qed.

(** X7: the details that follow the fixed sentence of an AI error name
    what was missing.  A response without [results] or without
    [summarize_text] gives the quoted key; a free-text result gives
    ['str' object has no attribute 'summary']; an object gives the first
    attribute it lacks, [summary] before [key_points]. *)
Theorem run_ai_analysis_error_details (service : ai_service)
  (repo_data : RepoData.t) (api_key : string) (response : pyval) :
  service (build_request repo_data api_key) = Return response ->
  (forall items,
     response = PyDict items -> dict_get "results" items = None ->
     fst (run_ai_analysis service repo_data api_key)
     = Raise (Exception (ai_error_prefix ++ "'results'"))) /\
  (forall items results,
     response = PyDict items ->
     dict_get "results" items = Some (PyDict results) ->
     dict_get "summarize_text" results = None ->
     fst (run_ai_analysis service repo_data api_key)
     = Raise (Exception (ai_error_prefix ++ "'summarize_text'"))) /\
  (forall text,
     results_object response = Some (PyStr text) ->
     fst (run_ai_analysis service repo_data api_key)
     = Raise (Exception
                (ai_error_prefix ++ "'str' object has no attribute 'summary'"))) /\
  (forall cls attrs,
     results_object response = Some (PyObject cls attrs) ->
     dict_get "summary" attrs = None ->
     fst (run_ai_analysis service repo_data api_key)
     = Raise (Exception
                (ai_error_prefix ++ "'" ++ cls
                   ++ "' object has no attribute 'summary'"))) /\
  (forall cls attrs summary,
     results_object response = Some (PyObject cls attrs) ->
     dict_get "summary" attrs = Some summary ->
     dict_get "key_points" attrs = None ->
     fst (run_ai_analysis service repo_data api_key)
     = Raise (Exception
                (ai_error_prefix ++ "'" ++ cls
                   ++ "' object has no attribute 'key_points'"))).
Proof.
  intros Hresp. split; [|split; [|split; [|split]]].
  - intros items -> Hnone.
    unfold run_ai_analysis, run_tasks, bind, try_except, is_Exception.
    rewrite Hresp. cbn [getitem]. rewrite Hnone. reflexivity.
  - intros items results -> Hr Hnone.
    unfold run_ai_analysis, run_tasks, bind, try_except, is_Exception.
    rewrite Hresp. cbn [getitem]. rewrite Hr. cbn [ret getitem].
    rewrite Hnone. reflexivity.
  - intros text Hobj.
    rewrite (run_ai_analysis_on_object _ _ _ _ _ Hresp Hobj). reflexivity.
  - intros cls attrs Hobj Hs.
    rewrite (run_ai_analysis_on_object _ _ _ _ _ Hresp Hobj).
    unfold getattr, bind, try_except. rewrite Hs. reflexivity.
  - intros cls attrs summary Hobj Hs Hk.
    rewrite (run_ai_analysis_on_object _ _ _ _ _ Hresp Hobj).
    unfold getattr, bind, try_except. rewrite Hs, Hk. reflexivity.
Qed.

Lemma run_ai_analysis_error_details_witness :
  fst (run_ai_analysis (fun _ => Return Sample.no_key_points) Sample.data "key")
  = Raise (Exception
             (ai_error_prefix
                ++ "'SummaryResult' object has no attribute 'key_points'")) /\
  fst (run_ai_analysis (fun _ => Return (PyDict [])) Sample.data "key")
  = Raise (Exception (ai_error_prefix ++ "'results'")).
Proof.
  split.
  - apply (proj2 (proj2 (proj2 (proj2
             (run_ai_analysis_error_details
                (fun _ => Return Sample.no_key_points) Sample.data "key"
                Sample.no_key_points eq_refl))))
             "SummaryResult" [("summary", PyStr "A demo repository.")]
             (PyStr "A demo repository.")); reflexivity.
  - apply (proj1 (run_ai_analysis_error_details
                    (fun _ => Return (PyDict [])) Sample.data "key"
                    (PyDict []) eq_refl) []); reflexivity.
Defined.

(** ** The pipeline *)


Lemma validate_repo_url_raises (url : string) (e : exn) :
  validate_repo_url url = Raise e -> e = ValueError invalid_url_message.
Proof.
  unfold validate_repo_url.
  destruct (Re.re_match pattern url) as [[|g1 [|g2 [|g3 l]]]|];
    intros H; now inversion H.
Qed.

Lemma fetch_repo_data_raise_inv (g : Github) (repo_name : string) (x : exn)
  (events : list event) :
  fetch_repo_data g repo_name = (Raise x, events) ->
  exists e, forge_refuses g repo_name e /\ x = Exception (status_message e).
Proof.
  intros Hrun. pose proof (fetch_repo_data_cases g repo_name) as H.
  unfold forge_refuses.
  destruct (get_repo g repo_name) as [repo|e] eqn:Hrepo.
  - destruct (Repository.get_languages repo) as [languages|e] eqn:Hlang.
    + destruct H as (d & file_log & _ & H).
      destruct (Repository.get_topics repo) as [topics|e] eqn:Htopics;
        rewrite H in Hrun; [discriminate|].
      inversion Hrun; subst. exists e. split; [|reflexivity].
      right. exists repo. split; [reflexivity|]. right. now exists languages.
    + rewrite H in Hrun. inversion Hrun; subst. exists e. split; [|reflexivity].
      right. exists repo. split; [reflexivity | now left].
  - rewrite H in Hrun. inversion Hrun; subst. exists e. now split; [left|].
Qed.

Lemma run_ai_analysis_raise_inv (service : ai_service) (repo_data : RepoData.t)
  (api_key : string) (x : exn) :
  fst (run_ai_analysis service repo_data api_key) = Raise x ->
  exists details, x = Exception (ai_error_prefix ++ details).
Proof.
  intros Hx.
  destruct (run_ai_analysis_cases service repo_data api_key) as [_ Hcases].
  destruct (service (build_request repo_data api_key)) as [response|e].
  - destruct (results_object response) as [obj|].
    + destruct (attribute obj "summary") as [summary|],
        (attribute obj "key_points") as [key_points|];
        [rewrite Hcases in Hx; discriminate | | |];
        destruct Hcases as [details Hd]; rewrite Hd in Hx;
        inversion Hx; now exists details.
    + destruct Hcases as [details Hd]. rewrite Hd in Hx.
      inversion Hx. now exists details.
  - rewrite Hcases in Hx. inversion Hx. now eexists.
Qed.




(** ** The page *)





(** X12: with the button pressed and the token, the key or the URL left
    empty, the run stops after one warning: nothing is requested from the
    forge or the AI service, the session is left as it was, and no result
    is shown in this run even when the session holds one. *)
Theorem main_guards (connect : string -> Github) (service : ai_service)
  (inputs : Inputs.t) (session : Session.t) :
  Inputs.button inputs = true ->
  Inputs.github_token inputs = "" \/
  Inputs.iointel_api_key inputs = "" \/
  Inputs.repo_url inputs = "" ->
  exists warning,
    main connect service inputs session
    = (session, [outside (st_warning warning)], Stopped) /\
    (warning = missing_keys_warning \/ warning = missing_url_warning).
Proof.
  intros Hb Hempty. unfold main. rewrite Hb.
  destruct (py_not (Inputs.github_token inputs)
            || py_not (Inputs.iointel_api_key inputs)) eqn:E.
  - exists missing_keys_warning. split; [reflexivity | now left].
  - apply orb_false_iff in E as [E1 E2].
    destruct Hempty as [H|[H|H]].
    + rewrite H in E1. discriminate.
    + rewrite H in E2. discriminate.
    + rewrite H. exists missing_url_warning. split; [reflexivity | now right].
Qed.

Lemma main_guards_witness :
  exists warning,
    main (Scenario.connect Scenario.repo) Scenario.service
      (Inputs.mk "token" "" Scenario.good_url true)
      (Session.mk (Some Sample.data)
         (Some {| overview := PyStr "old"; features := PyList [] |}) (Some true))
    = (Session.mk (Some Sample.data)
         (Some {| overview := PyStr "old"; features := PyList [] |}) (Some true),
       [outside (st_warning warning)], Stopped) /\
    (warning = missing_keys_warning \/ warning = missing_url_warning).
Proof.
  apply (main_guards (Scenario.connect Scenario.repo) Scenario.service
           (Inputs.mk "token" "" Scenario.good_url true)).
  - reflexivity.
  - right. left. reflexivity.
Defined.



(** ** The name the validator returns *)

Lemma validate_repo_url_inv (url name : string) :
  validate_repo_url url = Return name ->
  exists owner repo rest,
    github_url url owner repo rest /\ name = owner ++ "/" ++ repo.
Proof.
  unfold validate_repo_url.
  destruct (Re.re_match pattern url) as [g|] eqn:Hm; [|discriminate].
  apply re_match_pattern_inv in Hm as (owner & repo & rest & Hu & ->).
  intros H. inversion H. now exists owner, repo, rest.
Qed.

Lemma validate_repo_url_shape (url owner repo rest : string) :
  github_url url owner repo rest ->
  validate_repo_url url = Return (owner ++ "/" ++ repo).
Proof.
  intros H. unfold validate_repo_url.
  now rewrite (re_match_pattern_shape _ _ _ _ H).
Qed.

(** X14: a name returned by the validator is [owner/repo] with exactly
    one slash between two non-empty parts; the canonical URL made from it
    validates to the same name (a round trip); and an accepted URL stays
    accepted, with the same name, when further path segments are appended
    to it. *)
Theorem validate_repo_url_canonical (url name : string) :
  validate_repo_url url = Return name ->
  (exists owner repo,
     name = owner ++ "/" ++ repo /\
     owner <> "" /\ repo <> "" /\
     no_char "/" owner = true /\ no_char "/" repo = true) /\
  validate_repo_url ("https://github.com/" ++ name) = Return name /\
  (forall tail, validate_repo_url (url ++ "/" ++ tail) = Return name).
Proof.
  intros Hv.
  apply validate_repo_url_inv in Hv
    as (owner & repo & rest & (Hurl & Ho & Hno & Hr & Hnr & Hrest) & ->).
  split; [|split].
  - exists owner, repo. repeat split; assumption.
  - apply (validate_repo_url_shape _ owner repo "").
    repeat split; try assumption.
    right. now rewrite string_app_nil_r.
  - intros tail. apply (validate_repo_url_shape _ owner repo (rest ++ "/" ++ tail)).
    repeat split; try assumption.
    + destruct Hurl as [-> | ->]; [left | right];
        now rewrite !string_app_assoc.
    + destruct rest as [|c rest]; [reflexivity | exact Hrest].
Qed.

Lemma validate_repo_url_canonical_witness :
  validate_repo_url "https://github.com/octocat/hello-world"
    = Return "octocat/hello-world" /\
  validate_repo_url
    ("http://github.com/octocat/hello-world/tree/main" ++ "/" ++ "docs")
    = Return "octocat/hello-world".
Proof.
  destruct (validate_repo_url_canonical
              "http://github.com/octocat/hello-world/tree/main"
              "octocat/hello-world" eq_refl) as (_ & Hround & Htail).
  split; [exact Hround | exact (Htail "docs")].
Defined.

(** * The wide world *)

(** Without trouble the wide functions are the functions of the forge
    that only answers or refuses. *)
Lemma wide_no_trouble :
  (forall repo max_files max_file_size,
     Wide.get_important_file_content no_trouble repo max_files max_file_size
     = get_important_file_content repo max_files max_file_size) /\
  (forall g repo_name,
     Wide.fetch_repo_data no_trouble g repo_name = fetch_repo_data g repo_name) /\
  (forall service repo_data api_key,
     Wide.run_ai_analysis no_trouble service repo_data api_key
     = run_ai_analysis service repo_data api_key) /\
  (forall connect service github_token iointel_api_key repo_url,
     Wide.main_try no_trouble connect service github_token iointel_api_key repo_url
     = main_try connect service github_token iointel_api_key repo_url).
Proof. repeat split. Qed.

Lemma outcome_run {A : Type} (w : trouble) (what : event)
  (answer : forge_answer A) :
  Wide.forge w what answer = (outcome w what answer, [what]).
Proof.
  unfold outcome, Wide.forge, forge.
  now destruct (other w what), answer.
Qed.

(** A request raises what the forge refuses with, or what [other] gives. *)
Lemma outcome_raise {A : Type} (w : trouble) (what : event)
  (answer : forge_answer A) (x : exn) :
  outcome w what answer = Raise x ->
  other w what = Some x \/ exists e, answer = Fails e /\ x = GithubExc e.
Proof.
  unfold outcome, Wide.forge, forge.
  destruct (other w what) as [y|]; cbn.
  - intros H. inversion H. now left.
  - destruct answer as [a|e]; intros H; inversion H. right. now exists e.
Qed.

Lemma wide_read_file_run (w : trouble) (ms : Z) (f : ContentFile.t)
  (d : dict string) :
  Wide.read_file w ms f d =
  if (ContentFile.size f >? ms)%Z then
    (Return (dict_set (ContentFile.path f) (too_large_message ms) d), [])
  else
    match content_read w f with
    | Return text =>
        (Return (dict_set (ContentFile.path f) text d),
         [forge_decoded_content (ContentFile.path f)])
    | Raise e =>
        if is_UnicodeDecodeError_or_GithubException e then
          (Return (dict_set (ContentFile.path f) could_not_decode_message d),
           [forge_decoded_content (ContentFile.path f)])
        else (Raise e, [forge_decoded_content (ContentFile.path f)])
    end.
Proof.
  unfold Wide.read_file, content_read.
  destruct (ContentFile.size f >? ms)%Z; [reflexivity|].
  rewrite outcome_run. unfold bind, try_except.
  destruct (outcome w (forge_decoded_content (ContentFile.path f))
              (ContentFile.decoded_content f)) as [[text|reason]|e]; cbn;
    reflexivity.
Qed.

(** When no read escapes, the loop returns with one entry per file. *)
Lemma wide_for_each_returns (w : trouble) (ms : Z) (l : list ContentFile.t)
  (d : dict string) :
  Forall (no_escape w ms) l ->
  for_each l (Wide.read_file w ms) d
  = (Return (set_entries (wide_entry w ms) l d), flat_map (file_events ms) l).
Proof.
  intros Hl. revert d. induction Hl as [|f l Hf Hl IH]; intros d; [reflexivity|].
  cbn [for_each]. unfold bind. rewrite wide_read_file_run.
  unfold set_entries. cbn [fold_left flat_map].
  fold (set_entries (wide_entry w ms) l).
  unfold wide_entry at 2, file_events at 1. unfold no_escape in Hf.
  destruct (Z.gtb_spec (ContentFile.size f) ms) as [Hgt|Hle].
  - now rewrite IH.
  - destruct (content_read w f) as [text|e]; [now rewrite IH|].
    rewrite (Hf Hle e eq_refl). now rewrite IH.
Qed.

(** In any case: what the loop asks for, what it stores, what it raises. *)
Lemma wide_for_each_spec (w : trouble) (ms : Z) (l : list ContentFile.t)
  (d : dict string) :
  (forall ev, In ev (snd (for_each l (Wide.read_file w ms) d)) ->
     exists f, In f l /\ ev = forge_decoded_content (ContentFile.path f) /\
               (ContentFile.size f <= ms)%Z) /\
  length (snd (for_each l (Wide.read_file w ms) d)) <= length l /\
  match fst (for_each l (Wide.read_file w ms) d) with
  | Return d' =>
      Forall (no_escape w ms) l /\
      forall k, In k (dict_keys d') ->
                In k (dict_keys d) \/ In k (map ContentFile.path l)
  | Raise e =>
      is_UnicodeDecodeError_or_GithubException e = false /\
      exists f, In f l /\ (ContentFile.size f <= ms)%Z /\
                content_read w f = Raise e
  end.
Proof.
  revert d. induction l as [|f l IH]; intros d.
  - cbn. split; [intros ev []|]. split; [lia|]. split; [constructor | now left].
  - cbn [for_each]. unfold bind. rewrite wide_read_file_run.
    destruct (Z.gtb_spec (ContentFile.size f) ms) as [Hgt|Hle].
    + specialize (IH (dict_set (ContentFile.path f) (too_large_message ms) d)).
      destruct (for_each l (Wide.read_file w ms) _) as [r t].
      cbn [fst snd app] in *. destruct IH as (Hev & Hlen & Hr).
      split; [|split; [cbn [length]; lia|]].
      * intros ev Hin. destruct (Hev ev Hin) as (f' & Hf' & E).
        exists f'. split; [now right | exact E].
      * destruct r as [d'|e].
        -- destruct Hr as [Hall Hkeys]. split.
           ++ constructor; [|exact Hall]. intros Hsize. lia.
           ++ intros k Hk. apply Hkeys in Hk as [Hk|Hk]; [|right; now right].
              destruct (in_dec string_dec (ContentFile.path f) (dict_keys d))
                as [Hin|Hnin].
              ** rewrite dict_keys_set_in in Hk by assumption. now left.
              ** rewrite dict_keys_set_new in Hk by assumption.
                 apply in_app_or in Hk as [Hk|[<-|[]]];
                   [now left | right; now left].
        -- destruct Hr as (Hc & f' & Hf' & E). split; [exact Hc|].
           exists f'. split; [now right | exact E].
    + assert (Hstep : forall text,
        let r := for_each l (Wide.read_file w ms)
                   (dict_set (ContentFile.path f) text d) in
        (forall e, content_read w f = Raise e ->
                   is_UnicodeDecodeError_or_GithubException e = true) ->
        (forall ev,
           In ev (forge_decoded_content (ContentFile.path f) :: snd r) ->
           exists f', In f' (f :: l) /\
                      ev = forge_decoded_content (ContentFile.path f') /\
                      (ContentFile.size f' <= ms)%Z) /\
        length (forge_decoded_content (ContentFile.path f) :: snd r)
          <= length (f :: l) /\
        match fst r with
        | Return d' =>
            Forall (no_escape w ms) (f :: l) /\
            forall k, In k (dict_keys d') ->
                      In k (dict_keys d) \/ In k (map ContentFile.path (f :: l))
        | Raise e =>
            is_UnicodeDecodeError_or_GithubException e = false /\
            exists f', In f' (f :: l) /\ (ContentFile.size f' <= ms)%Z /\
                       content_read w f' = Raise e
        end).
      { intros text r Hcaught. subst r.
        specialize (IH (dict_set (ContentFile.path f) text d)).
        destruct (for_each l (Wide.read_file w ms) _) as [r t].
        cbn [fst snd] in *. destruct IH as (Hev & Hlen & Hr).
        split; [|split; [cbn [length]; lia|]].
        - intros ev [<-|Hin].
          + exists f. split; [now left | now split].
          + destruct (Hev ev Hin) as (f' & Hf' & E).
            exists f'. split; [now right | exact E].
        - destruct r as [d'|e].
          + destruct Hr as [Hall Hkeys]. split.
            * constructor; [|exact Hall]. intros _. exact Hcaught.
            * intros k Hk. apply Hkeys in Hk as [Hk|Hk]; [|right; now right].
              destruct (in_dec string_dec (ContentFile.path f) (dict_keys d))
                as [Hin|Hnin].
              -- rewrite dict_keys_set_in in Hk by assumption. now left.
              -- rewrite dict_keys_set_new in Hk by assumption.
                 apply in_app_or in Hk as [Hk|[<-|[]]];
                   [now left | right; now left].
          + destruct Hr as (Hc & f' & Hf' & E). split; [exact Hc|].
            exists f'. split; [now right | exact E]. }
      destruct (content_read w f) as [text|e] eqn:Hread.
      * specialize (Hstep text ltac:(intros e He; discriminate)).
        cbn zeta in Hstep.
        destruct (for_each l (Wide.read_file w ms) _) as [r t]. exact Hstep.
      * destruct (is_UnicodeDecodeError_or_GithubException e) eqn:Hc.
        -- specialize (Hstep could_not_decode_message
                         ltac:(intros e' He'; inversion He'; now subst)).
           cbn zeta in Hstep.
           destruct (for_each l (Wide.read_file w ms) _) as [r t]. exact Hstep.
        -- cbn [fst snd]. split; [|split; [cbn; lia|]].
           ++ intros ev [<-|[]]. exists f. split; [now left | now split].
           ++ split; [exact Hc|]. exists f. split; [now left | now split].
Qed.

Lemma not_caught_not_github (e : exn) :
  is_UnicodeDecodeError_or_GithubException e = false ->
  is_GithubException e = false.
Proof. now destruct e. Qed.

(** The selector in the wide world, case by case on the listing. *)
Lemma wide_selector_run (w : trouble) (repo : Repository.t)
  (max_files max_file_size : Z) :
  match outcome w (forge_get_contents "") (Repository.get_contents repo "") with
  | Return contents =>
      Wide.get_important_file_content w repo max_files max_file_size
      = (fst (for_each (selected_files contents max_files)
                (Wide.read_file w max_file_size) []),
         forge_get_contents ""
           :: snd (for_each (selected_files contents max_files)
                     (Wide.read_file w max_file_size) []))
  | Raise (GithubExc e) =>
      Wide.get_important_file_content w repo max_files max_file_size
      = (Return [], [forge_get_contents ""; st_warning (listing_warning e)])
  | Raise x =>
      Wide.get_important_file_content w repo max_files max_file_size
      = (Raise x, [forge_get_contents ""])
  end.
Proof.
  unfold Wide.get_important_file_content. rewrite outcome_run.
  unfold bind, try_except.
  destruct (outcome w (forge_get_contents "") (Repository.get_contents repo ""))
    as [contents|x].
  - fold (selected_files contents max_files).
    pose proof (wide_for_each_spec w max_file_size
                  (selected_files contents max_files) []) as (_ & _ & Hr).
    destruct (for_each (selected_files contents max_files)
                (Wide.read_file w max_file_size) []) as [[d|e] t];
      cbn [fst snd] in *; [reflexivity|].
    destruct Hr as [Hc _]. now rewrite (not_caught_not_github e Hc).
  - destruct x; reflexivity.
Qed.

(** ** Entries, for any text per file *)




(** The fetcher in the wide world, case by case.  The handler wraps a
    [GithubException] and lets anything else through as it is:
    [fetch_error] is the identity on the other exceptions. *)
Lemma wide_fetch_repo_data_cases (w : trouble) (g : Github) (repo_name : string) :
  match outcome w (forge_get_repo repo_name) (get_repo g repo_name) with
  | Raise x =>
      Wide.fetch_repo_data w g repo_name
      = (Raise (fetch_error x), [forge_get_repo repo_name])
  | Return repo =>
      match outcome w forge_get_languages (Repository.get_languages repo) with
      | Raise x =>
          Wide.fetch_repo_data w g repo_name
          = (Raise (fetch_error x), [forge_get_repo repo_name; forge_get_languages])
      | Return languages =>
          match Wide.get_important_file_content w repo 7 15000 with
          | (Raise x, file_log) =>
              is_GithubException x = false /\
              Wide.fetch_repo_data w g repo_name
              = (Raise x,
                 ([forge_get_repo repo_name; forge_get_languages] ++ file_log)%list)
          | (Return important_files, file_log) =>
              match outcome w forge_get_topics (Repository.get_topics repo) with
              | Raise x =>
                  Wide.fetch_repo_data w g repo_name
                  = (Raise (fetch_error x),
                     ([forge_get_repo repo_name; forge_get_languages]
                        ++ file_log ++ [forge_get_topics])%list)
              | Return topics =>
                  Wide.fetch_repo_data w g repo_name
                  = (Return
                       {| RepoData.name := Repository.name repo;
                          RepoData.owner := Repository.owner_login repo;
                          RepoData.description :=
                            py_or (Repository.description repo) no_description;
                          RepoData.url := Repository.html_url repo;
                          RepoData.language :=
                            py_or (Repository.language repo) not_specified;
                          RepoData.tech_stack := dict_keys languages;
                          RepoData.stars := Repository.stargazers_count repo;
                          RepoData.forks := Repository.forks_count repo;
                          RepoData.topics := topics;
                          RepoData.important_files := important_files |},
                     ([forge_get_repo repo_name; forge_get_languages]
                        ++ file_log ++ [forge_get_topics])%list)
              end
          end
      end
  end.
Proof.
  assert (Hng : forall repo x t,
    Wide.get_important_file_content w repo 7 15000 = (Raise x, t) ->
    is_GithubException x = false).
  { intros repo x t Hx. pose proof (wide_selector_run w repo 7 15000) as Hsel.
    destruct (outcome w (forge_get_contents "") (Repository.get_contents repo ""))
      as [contents|y].
    - pose proof (wide_for_each_spec w 15000 (selected_files contents 7) [])
        as (_ & _ & Hr).
      rewrite Hsel in Hx. inversion Hx as [[Hfst Hsnd]].
      rewrite Hfst in Hr. now apply not_caught_not_github.
    - destruct y; rewrite Hsel in Hx; inversion Hx; reflexivity. }
  unfold Wide.fetch_repo_data, bind, try_except.
  rewrite (outcome_run w (forge_get_repo repo_name)).
  destruct (outcome w (forge_get_repo repo_name) (get_repo g repo_name))
    as [repo|x]; cbn beta iota.
  2:{ destruct x; cbn; now rewrite ?app_nil_r. }
  rewrite (outcome_run w forge_get_languages).
  destruct (outcome w forge_get_languages (Repository.get_languages repo))
    as [languages|x]; cbn beta iota.
  2:{ destruct x; cbn; now rewrite ?app_nil_r. }
  specialize (Hng repo).
  destruct (Wide.get_important_file_content w repo 7 15000)
    as [[important_files|x] file_log]; cbn beta iota.
  - rewrite (outcome_run w forge_get_topics).
    destruct (outcome w forge_get_topics (Repository.get_topics repo))
      as [topics|x]; cbn beta iota.
    + cbn. now rewrite ?app_nil_r.
    + destruct x; cbn; now rewrite ?app_nil_r.
  - split; [now apply (Hng x file_log)|].
    now rewrite (Hng x file_log eq_refl).
Qed.


(** A read raises an exception that is not caught only when [other] gives
    it. *)
Lemma content_read_escape (w : trouble) (f : ContentFile.t) (e : exn) :
  content_read w f = Raise e ->
  is_UnicodeDecodeError_or_GithubException e = false ->
  other w (forge_decoded_content (ContentFile.path f)) = Some e.
Proof.
  unfold content_read. intros Hread Hc.
  destruct (outcome w (forge_decoded_content (ContentFile.path f))
              (ContentFile.decoded_content f)) as [[text|reason]|x] eqn:Ho;
    inversion Hread; subst.
  - discriminate.
  - apply outcome_raise in Ho as [Ho|(ge & _ & ->)]; [exact Ho | discriminate].
Qed.

(** What leaves the selector was raised by a request, and is not a
    [GithubException]. *)
Lemma wide_selector_raise_inv (w : trouble) (repo : Repository.t)
  (max_files max_file_size : Z) (x : exn) (t : list event) :
  Wide.get_important_file_content w repo max_files max_file_size = (Raise x, t) ->
  is_GithubException x = false /\ exists what, other w what = Some x.
Proof.
  intros Hx. pose proof (wide_selector_run w repo max_files max_file_size) as Hsel.
  destruct (outcome w (forge_get_contents "") (Repository.get_contents repo ""))
    as [contents|y] eqn:Ho.
  - pose proof (wide_for_each_spec w max_file_size
                  (selected_files contents max_files) []) as (_ & _ & Hr).
    rewrite Hsel in Hx. inversion Hx as [[Hfst Hsnd]]. rewrite Hfst in Hr.
    destruct Hr as (Hc & f & _ & _ & Hread).
    split; [now apply not_caught_not_github|].
    eexists. exact (content_read_escape w f x Hread Hc).
  - assert (Hy : is_GithubException y = false /\ x = y).
    { destruct y; rewrite Hsel in Hx; inversion Hx; now split. }
    destruct Hy as [Hy ->]. split; [exact Hy|].
    apply outcome_raise in Ho as [Ho|(ge & _ & ->)];
      [eexists; exact Ho | discriminate].
Qed.


(** ** File selection: which failures degrade *)




(** ** Repository data fetcher: which failures are raised *)

(** What [fetch_repo_data] raises: a wrapped refusal, or what a request
    raised, as it is. *)
Lemma wide_fetch_raise_inv (w : trouble) (g : Github) (repo_name : string)
  (x : exn) (events : list event) :
  Wide.fetch_repo_data w g repo_name = (Raise x, events) ->
  (exists e, wide_refuses w g repo_name e /\ x = Exception (status_message e)) \/
  (is_GithubException x = false /\ exists what, other w what = Some x).
Proof.
  intros Hx. pose proof (wide_fetch_repo_data_cases w g repo_name) as H.
  unfold wide_refuses.
  assert (Hcall : forall (A : Type) what (answer : forge_answer A) y,
            outcome w what answer = Raise y ->
            (exists e, y = GithubExc e) \/
            (is_GithubException y = false /\ fetch_error y = y /\
             exists what', other w what' = Some y)).
  { intros A what answer y Hy. destruct (is_GithubException y) eqn:Hg.
    - left. destruct y; try discriminate. now eexists.
    - right. split; [reflexivity|]. split; [now destruct y|].
      apply outcome_raise in Hy as [Hy|(ge & _ & ->)];
        [eexists; exact Hy | discriminate]. }
  destruct (outcome w (forge_get_repo repo_name) (get_repo g repo_name))
    as [repo|y] eqn:Hr.
  + destruct (outcome w forge_get_languages (Repository.get_languages repo))
      as [languages|y] eqn:Hl.
    * destruct (Wide.get_important_file_content w repo 7 15000)
        as [[d|y] log] eqn:Hsel.
      -- destruct (outcome w forge_get_topics (Repository.get_topics repo))
           as [topics|y] eqn:Ht; rewrite H in Hx; [discriminate|].
         inversion Hx; subst x events.
         destruct (Hcall _ _ _ _ Ht) as [[e ->]|(Hg & -> & Ho)];
           [left | right; now split].
         exists e. split; [|apply fetch_error_status].
         right. exists repo. split; [reflexivity|]. right.
         exists languages, d. rewrite Hsel. now repeat split.
      -- destruct H as [Hg H]. rewrite H in Hx. inversion Hx; subst x events.
         right. exact (wide_selector_raise_inv _ _ _ _ _ _ Hsel).
    * rewrite H in Hx. inversion Hx; subst x events.
      destruct (Hcall _ _ _ _ Hl) as [[e ->]|(Hg & -> & Ho)];
        [left | right; now split].
      exists e. split; [|apply fetch_error_status].
      right. exists repo. split; [reflexivity | now left].
  + rewrite H in Hx. inversion Hx; subst x events.
    destruct (Hcall _ _ _ _ Hr) as [[e ->]|(Hg & -> & Ho)];
      [left | right; now split].
    exists e. split; [now left | apply fetch_error_status].
Qed.

(** C6, as the code has it: when the repository lookup, the language
    breakdown or the topics call raises a [GithubException],
    [fetch_repo_data] raises an [Exception] chosen by its status: the
    not-found message for 404, the authentication message for 401, and for
    any other status the generic message that wraps the text of the
    exception; the three messages are pairwise different.  A
    [GithubException] on the root listing or on the content of a file is
    not raised, whatever its status: the selector absorbs it and
    [fetch_repo_data] returns.  Whatever else [fetch_repo_data] raises is
    an exception of another class that a request raised, passed on as it
    is. *)
Theorem fetch_repo_data_wraps_refusals (w : trouble) (g : Github)
  (repo_name : string) :
  (forall e,
     wide_refuses w g repo_name e ->
     fst (Wide.fetch_repo_data w g repo_name)
     = Raise (Exception (status_message e)) /\
     ((status e = 404)%Z -> status_message e = not_found_message) /\
     ((status e = 401)%Z -> status_message e = auth_error_message) /\
     ((status e <> 404)%Z -> (status e <> 401)%Z ->
      status_message e = fetch_error_prefix ++ gh_text e)) /\
  (forall repo languages topics e,
     outcome w (forge_get_repo repo_name) (get_repo g repo_name) = Return repo ->
     outcome w forge_get_languages (Repository.get_languages repo)
       = Return languages ->
     outcome w forge_get_topics (Repository.get_topics repo) = Return topics ->
     outcome w (forge_get_contents "") (Repository.get_contents repo "")
       = Raise (GithubExc e) ->
     exists repo_data events,
       Wide.fetch_repo_data w g repo_name = (Return repo_data, events)) /\
  (forall repo languages topics contents,
     outcome w (forge_get_repo repo_name) (get_repo g repo_name) = Return repo ->
     outcome w forge_get_languages (Repository.get_languages repo)
       = Return languages ->
     outcome w forge_get_topics (Repository.get_topics repo) = Return topics ->
     outcome w (forge_get_contents "") (Repository.get_contents repo "")
       = Return contents ->
     Forall (no_escape w 15000) (selected_files contents 7) ->
     exists repo_data events,
       Wide.fetch_repo_data w g repo_name = (Return repo_data, events)) /\
  (forall x events,
     Wide.fetch_repo_data w g repo_name = (Raise x, events) ->
     (exists e, wide_refuses w g repo_name e /\ x = Exception (status_message e)) \/
     (is_GithubException x = false /\ exists what, other w what = Some x)) /\
  not_found_message <> auth_error_message /\
  (forall text,
     fetch_error_prefix ++ text <> not_found_message /\
     fetch_error_prefix ++ text <> auth_error_message).
Proof.
  pose proof (wide_fetch_repo_data_cases w g repo_name) as H.
  split; [|split; [|split; [|split; [|split]]]].
  - intros e He. split.
    + destruct He as [He | (repo & Hr & [He | (languages & d & Hl & Hd & He)])].
      * rewrite He in H. now rewrite H, fetch_error_status.
      * rewrite Hr, He in H. now rewrite H, fetch_error_status.
      * rewrite Hr, Hl in H.
        destruct (Wide.get_important_file_content w repo 7 15000) as [r log].
        cbn [fst] in Hd. subst r. rewrite He in H.
        now rewrite H, fetch_error_status.
    + unfold status_message. repeat split.
      * intros ->. reflexivity.
      * intros ->. reflexivity.
      * intros H1 H2.
        destruct (Z.eqb_spec (status e) 404); [contradiction|].
        destruct (Z.eqb_spec (status e) 401); [contradiction | reflexivity].
  - intros repo languages topics e Hr Hl Ht Hc.
    pose proof (wide_selector_run w repo 7 15000) as Hsel.
    rewrite Hc in Hsel. rewrite Hr, Hl, Hsel, Ht in H.
    do 2 eexists. exact H.
  - intros repo languages topics contents Hr Hl Ht Hc Hall.
    pose proof (wide_selector_run w repo 7 15000) as Hsel.
    rewrite Hc, (wide_for_each_returns _ _ _ _ Hall) in Hsel.
    cbn [fst snd] in Hsel. rewrite Hr, Hl, Hsel, Ht in H.
    do 2 eexists. exact H.
  - intros x events Hx. exact (wide_fetch_raise_inv w g repo_name x events Hx).
  - discriminate.
  - intros text. split; discriminate.
Qed.

Lemma fetch_repo_data_wraps_refusals_witness :
  fst (Wide.fetch_repo_data no_trouble
         (mkGithub (fun _ => Fails (mkGithubException 404 "404 Not Found")))
         "octocat/none")
  = Raise (Exception "Repository not found. Please check the URL.") /\
  fst (Wide.fetch_repo_data no_trouble
         (mkGithub (fun _ => Fails (mkGithubException 401 "401 Bad credentials")))
         "octocat/hello-world")
  = Raise (Exception "Authentication error. Please check your GitHub token.") /\
  fst (Wide.fetch_repo_data no_trouble
         (mkGithub (fun _ => Fails (mkGithubException 403 "403 rate limit")))
         "octocat/hello-world")
  = Raise (Exception "Error fetching repo data: 403 rate limit") /\
  (exists repo_data events,
     Wide.fetch_repo_data no_trouble
       (Sample.forge_of (Storm.refused 401 "401 Bad credentials"))
       "octocat/hello-world"
     = (Return repo_data, events)).
Proof.
  split; [|split; [|split]].
  - apply (proj1 (fetch_repo_data_wraps_refusals no_trouble _ "octocat/none")
             (mkGithubException 404 "404 Not Found")).
    left. reflexivity.
  - apply (proj1 (fetch_repo_data_wraps_refusals no_trouble _ "octocat/hello-world")
             (mkGithubException 401 "401 Bad credentials")).
    left. reflexivity.
  - apply (proj1 (fetch_repo_data_wraps_refusals no_trouble _ "octocat/hello-world")
             (mkGithubException 403 "403 rate limit")).
    left. reflexivity.
  - apply (proj1 (proj2 (fetch_repo_data_wraps_refusals no_trouble
                           (Sample.forge_of (Storm.refused 401 "401 Bad credentials"))
                           "octocat/hello-world"))
             (Storm.refused 401 "401 Bad credentials") [("Ruby", 100%Z)] ["demo"]
             (mkGithubException 401 "401 Bad credentials"));
      reflexivity.
Defined.

(** C6 as worded fails: the forge rejects the credential (status 401) on
    the root listing, or fails (status 500) on the content of a file, and
    [fetch_repo_data] raises no error: it returns its record, with no
    files or with a placeholder. *)
Lemma fetch_repo_data_listing_refusal_not_raised :
  (exists repo_data events,
     fetch_repo_data (Sample.forge_of (Storm.refused 401 "401 Bad credentials"))
       "octocat/hello-world"
     = (Return repo_data, events) /\
     RepoData.important_files repo_data = [] /\
     events = [forge_get_repo "octocat/hello-world"; forge_get_languages;
               forge_get_contents "";
               st_warning "Could not fetch some file contents: 401 Bad credentials";
               forge_get_topics]) /\
  (exists repo_data events,
     fetch_repo_data
       (Sample.forge_of (Sample.repository None None (Ok [Sample.gone])))
       "octocat/hello-world"
     = (Return repo_data, events) /\
     RepoData.important_files repo_data
     = [("app.py", could_not_decode_message)]).
Proof.
  split; do 2 eexists; repeat split.
Qed.

(** ** What the selector asks for, and when it returns *)

(** X3: with a listing, the selector makes one listing request followed
    by content requests only.  Each content request is for a regular file
    of the listing that is not larger than [max_file_size]; for
    [max_files >= 0] at most [max_files] contents are requested; every key
    of a returned dict is the path of a regular file of the listing
    (directories and symlinks are neither read nor reported).  The
    selector returns exactly when no read of a selected file raises an
    exception other than [GithubException] and [UnicodeDecodeError];
    otherwise it raises such an exception, as the read raised it. *)
Theorem selector_requests (w : trouble) (repo : Repository.t)
  (contents : list ContentFile.t) (max_files max_file_size : Z) :
  outcome w (forge_get_contents "") (Repository.get_contents repo "")
    = Return contents ->
  exists events,
    snd (Wide.get_important_file_content w repo max_files max_file_size)
    = forge_get_contents "" :: events /\
    (forall ev, In ev events ->
       exists f, ev = forge_decoded_content (ContentFile.path f) /\
                 In f contents /\ ContentFile.type f = "file" /\
                 (ContentFile.size f <= max_file_size)%Z) /\
    ((0 <= max_files)%Z -> (Z.of_nat (length events) <= max_files)%Z) /\
    (forall d,
       fst (Wide.get_important_file_content w repo max_files max_file_size)
         = Return d ->
       forall k, In k (dict_keys d) ->
         exists f, k = ContentFile.path f /\
                   In f contents /\ ContentFile.type f = "file") /\
    (forall x,
       fst (Wide.get_important_file_content w repo max_files max_file_size)
         = Raise x ->
       is_UnicodeDecodeError_or_GithubException x = false /\
       exists f, In f (selected_files contents max_files) /\
                 (ContentFile.size f <= max_file_size)%Z /\
                 content_read w f = Raise x) /\
    (Forall (no_escape w max_file_size) (selected_files contents max_files) <->
     exists d,
       fst (Wide.get_important_file_content w repo max_files max_file_size)
         = Return d).
Proof.
  intros Ho.
  pose proof (wide_selector_run w repo max_files max_file_size) as Hsel.
  rewrite Ho in Hsel. rewrite Hsel. cbn [fst snd].
  pose proof (wide_for_each_spec w max_file_size
                (selected_files contents max_files) []) as (Hev & Hlen & Hr).
  eexists. split; [reflexivity|].
  split; [|split; [|split; [|split]]].
  - intros ev Hin. destruct (Hev ev Hin) as (f & Hf & -> & Hsize).
    exists f. destruct (selected_files_regular _ _ _ Hf) as [Hc Ht].
    repeat split; assumption.
  - intros Hmax.
    pose proof (slice_to_length max_files (files_to_check contents) Hmax).
    unfold selected_files in *. lia.
  - intros d Hd k Hk. rewrite Hd in Hr. destruct Hr as [_ Hkeys].
    apply Hkeys in Hk as [[]|Hk].
    apply in_map_iff in Hk as (f & <- & Hf). exists f.
    destruct (selected_files_regular _ _ _ Hf) as [Hc Ht].
    repeat split; assumption.
  - intros x Hx. rewrite Hx in Hr. exact Hr.
  - split.
    + intros Hall. rewrite (wide_for_each_returns _ _ _ _ Hall). now eexists.
    + intros [d Hd]. rewrite Hd in Hr. apply Hr.
Qed.

Lemma selector_requests_witness :
  exists events,
    snd (Wide.get_important_file_content Storm.readme_unreadable Scenario.repo
           2 15000)
    = forge_get_contents "" :: events /\
    ~ In (forge_decoded_content "src") events /\
    (Z.of_nat (length events) <= 2)%Z /\
    fst (Wide.get_important_file_content Storm.readme_unreadable Scenario.repo
           2 15000)
    = Raise Storm.unsupported.
Proof.
  destruct (selector_requests Storm.readme_unreadable Scenario.repo Scenario.listing
              2 15000 eq_refl) as (events & Hlog & Hev & Hlen & _ & _ & _).
  exists events. split; [exact Hlog|]. split; [|split].
  - intros Hin. destruct (Hev _ Hin) as (f & E & Hf & Htype & _).
    inversion E as [Hp].
    destruct Hf as [<-|[<-|[<-|[<-|[<-|[]]]]]]; discriminate.
  - apply Hlen. lia.
  - reflexivity.
Defined.

(** ** The pipeline in the wide world *)

Lemma wide_main_try_cases (w : trouble) (connect : string -> Github)
  (service : ai_service) (github_token iointel_api_key repo_url : string) :
  match validate_repo_url repo_url with
  | Raise e =>
      Wide.main_try w connect service github_token iointel_api_key repo_url
      = (Raise e, [])
  | Return repo_name =>
      match Wide.fetch_repo_data w (connect github_token) repo_name with
      | (Raise e, log1) =>
          Wide.main_try w connect service github_token iointel_api_key repo_url
          = (Raise e, log1)
      | (Return repo_data, log1) =>
          match Wide.run_ai_analysis w service repo_data iointel_api_key with
          | (Raise e, log2) =>
              Wide.main_try w connect service github_token iointel_api_key repo_url
              = (Raise e, (log1 ++ log2)%list)
          | (Return ai_results, log2) =>
              Wide.main_try w connect service github_token iointel_api_key repo_url
              = (Return (repo_data, ai_results), (log1 ++ log2)%list)
          end
      end
  end.
Proof.
  unfold Wide.main_try, lift, bind.
  destruct (validate_repo_url repo_url) as [repo_name|e]; [|reflexivity].
  destruct (Wide.fetch_repo_data w (connect github_token) repo_name)
    as [[repo_data|e] log1]; [|reflexivity].
  destruct (Wide.run_ai_analysis w service repo_data iointel_api_key)
    as [[ai_results|e] log2]; cbn; [now rewrite app_nil_r | reflexivity].
Qed.

(** X8: the errors of the pipeline.  Three are made by the program: the
    [ValueError] of an invalid URL (raised before any request), the
    [Exception] chosen by the status of a [GithubException] of the lookup,
    the language breakdown or the topics, and the [Exception] that wraps
    whatever the [try] of [run_ai_analysis] met.  Anything else that the
    pipeline raises is an exception of another class that a forge request
    raised, or the failure of the import of [iointel]: neither is wrapped. *)
Theorem pipeline_errors (w : trouble) (connect : string -> Github)
  (service : ai_service) (github_token iointel_api_key repo_url : string)
  (x : exn) (events : list event) :
  Wide.main_try w connect service github_token iointel_api_key repo_url
  = (Raise x, events) ->
  (x = ValueError invalid_url_message /\ events = []) \/
  (exists repo_name e,
     validate_repo_url repo_url = Return repo_name /\
     wide_refuses w (connect github_token) repo_name e /\
     x = Exception (status_message e)) \/
  (exists details, x = Exception (ai_error_prefix ++ details)) \/
  (is_GithubException x = false /\ exists what, other w what = Some x) \/
  import_error w = Some x.
Proof.
  intros Hrun.
  pose proof (wide_main_try_cases w connect service github_token iointel_api_key
                repo_url) as H.
  destruct (validate_repo_url repo_url) as [repo_name|e] eqn:Hv.
  - destruct (Wide.fetch_repo_data w (connect github_token) repo_name)
      as [[repo_data|e] log1] eqn:Hf.
    + unfold Wide.run_ai_analysis in H.
      destruct (import_error w) as [y|] eqn:Hi.
      * unfold raise in H. cbn beta iota in H. rewrite H in Hrun.
        inversion Hrun; subst. tauto.
      * destruct (run_ai_analysis service repo_data iointel_api_key)
          as [[ai_results|e] log2] eqn:Ha; rewrite H in Hrun; [discriminate|].
        inversion Hrun; subst. right. right. left.
        apply (run_ai_analysis_raise_inv service repo_data iointel_api_key).
        now rewrite Ha.
    + rewrite H in Hrun. inversion Hrun; subst.
      destruct (wide_fetch_raise_inv _ _ _ _ _ Hf) as [(e & He & ->)|Hother].
      * right. left. now exists repo_name, e.
      * right. right. right. now left.
  - rewrite H in Hrun. inversion Hrun; subst. left.
    split; [now apply (validate_repo_url_raises repo_url) | reflexivity].
Qed.

Lemma pipeline_errors_witness :
  (Storm.unsupported = ValueError invalid_url_message /\
   [forge_get_repo "octocat/hello-world"; forge_get_languages;
    forge_get_contents ""; forge_decoded_content "README.md"] = []) \/
  (exists repo_name e,
     validate_repo_url Scenario.good_url = Return repo_name /\
     wide_refuses Storm.readme_unreadable
       (Scenario.connect Storm.small_repo "token") repo_name e /\
     Storm.unsupported = Exception (status_message e)) \/
  (exists details, Storm.unsupported = Exception (ai_error_prefix ++ details)) \/
  (is_GithubException Storm.unsupported = false /\
   exists what, other Storm.readme_unreadable what = Some Storm.unsupported) \/
  import_error Storm.readme_unreadable = Some Storm.unsupported.
Proof.
  apply (pipeline_errors Storm.readme_unreadable
           (Scenario.connect Storm.small_repo) Scenario.service
           "token" "key" Scenario.good_url).
  reflexivity.
Defined.

(** ** The order of the requests *)


(** ** Where a shown result comes from *)








